(** * The FCM notification test harness (test_fcm_notifications.py)

    A shallow embedding of the [FCMTester] class and of [main], and the
    properties of the harness proved over it.

    Python values are embedded as follows.
    - A [str] is the list of its Unicode code points ([pystr]); slicing and
      [len] therefore count characters the way Python does.  A str decoded
      from JSON can also hold lone surrogates, which [print] cannot write:
      such a str is a [ustr], in which they are marked.
    - A value decoded by [response.json()] is a [pyval].
    - Every Python [int] is a [Z].
    - A statement sequence is a computation in the monad [M]: it threads the
      world (remote side, standard output, the requests sent so far) and
      ends either normally or with a raised exception.  Output printed
      before an exception is raised stays printed.

    What is assumed of the environment: standard output encodes in UTF-8
    and is never closed; the command line, the text of a response and the
    text of an exception hold no lone surrogate (the command line was
    decoded without error, [requests] decodes a body with replacement);
    [argparse] is taken by its result, the namespace or the exit; and no
    exception arrives from outside the program (a keyboard interrupt). *)

From Stdlib Require Import ZArith List String Ascii Bool Lia DecimalString.
From Stdlib Require Import Floats.PrimFloat.
From Stdlib Require DecimalPos DecimalZ.
Import ListNotations.
Local Open Scope Z_scope.
Local Open Scope list_scope.
Set Implicit Arguments.
Set Warnings "-register-all".

(** * Part I: the program *)

(** ** Strings *)

Module PyStr.

Definition pystr := list N.

(** An ASCII literal of the source. *)
Definition lit (s : string) : pystr :=
  map N_of_ascii (list_ascii_of_string s).

Definition eqb (a b : pystr) : bool :=
  if list_eq_dec N.eq_dec a b then true else false.

(** [str(n)] for an [int]. *)
Definition str_int (z : Z) : pystr :=
  lit (NilZero.string_of_int (Z.to_int z)).

(** [s.rstrip(c)] for a one-character argument: drop every trailing [c]. *)
Definition rstrip (c : N) (s : pystr) : pystr :=
  fold_right
    (fun x acc =>
       match acc with
       | [] => if N.eqb x c then [] else [x]
       | _ => x :: acc
       end)
    [] s.

(** [needle in hay] for two strings. *)
Fixpoint starts_with (p s : pystr) : bool :=
  match p, s with
  | [], _ => true
  | _ :: _, [] => false
  | a :: p', b :: s' => N.eqb a b && starts_with p' s'
  end.

Fixpoint contains (needle hay : pystr) : bool :=
  starts_with needle hay
  || match hay with
     | [] => false
     | _ :: hay' => contains needle hay'
     end.

(** A character of a str in general.  The strings of the source, of the
    command line, of [response.text] and of an exception's text are
    [pystr]s; a str decoded by [response.json()] may also hold lone
    surrogates (from [\udXXX] escapes), which are marked. *)
Inductive uchar : Type :=
| Char (c : N)
| Lone (c : N).     (* a lone surrogate, U+D800 to U+DFFF *)

Definition ustr := list uchar.

Definition plain (s : pystr) : ustr := map Char s.

Definition uchar_eqb (a b : uchar) : bool :=
  match a, b with
  | Char x, Char y | Lone x, Lone y => N.eqb x y
  | _, _ => false
  end.

Fixpoint ustr_eqb (a b : ustr) : bool :=
  match a, b with
  | [], [] => true
  | x :: a', y :: b' => uchar_eqb x y && ustr_eqb a' b'
  | _, _ => false
  end.

Fixpoint ustarts_with (p s : ustr) : bool :=
  match p, s with
  | [], _ => true
  | _ :: _, [] => false
  | a :: p', b :: s' => uchar_eqb a b && ustarts_with p' s'
  end.

Fixpoint ucontains (needle hay : ustr) : bool :=
  ustarts_with needle hay
  || match hay with
     | [] => false
     | _ :: hay' => ucontains needle hay'
     end.

(** What standard output writes for [s], in UTF-8 with the strict error
    handler: the codec refuses a lone surrogate. *)
Fixpoint encode (s : ustr) : option pystr :=
  match s with
  | [] => Some []
  | Char c :: s' =>
      match encode s' with
      | Some t => Some (c :: t)
      | None => None
      end
  | Lone _ :: _ => None
  end.

Arguments lit : simpl never.
Arguments str_int : simpl never.
Arguments plain : simpl never.
Arguments encode : simpl never.

(** The characters of the source that are not ASCII, by code point. *)
Definition NL : N := 10.
Definition SLASH : N := 47.
Definition MAGNIFIER : N := 0x1F50D.
Definition CHECK_MARK : N := 0x2705.
Definition PHONE : N := 0x1F4F1.
Definition WARNING : pystr := [0x26A0; 0xFE0F]%N.
Definition CROSS_MARK : N := 0x274C.
Definition OUTBOX : N := 0x1F4E4.
Definition TEST_TUBE : N := 0x1F9EA.
Definition BAR_CHART : N := 0x1F4CA.
Definition ROCKET : N := 0x1F680.
Definition PARTY : N := 0x1F389.

End PyStr.
Import PyStr.

(** ** Decoded JSON values and the exceptions of the run *)

Inductive pyval : Type :=
| PNone
| PBool (b : bool)
| PInt (z : Z)
| PFloat (f : float)
| PStr (s : pystr)                    (* a str without lone surrogates *)
| PSurr (s : ustr)                    (* a str that may hold some *)
| PList (l : list pyval)
| PDict (d : list (pystr * pyval)).   (* insertion-ordered, keys distinct *)

(** The program looks a dict up by the keys it names only, and never
    prints a key: a key that holds a lone surrogate stands here for any
    other key the program does not name. *)

Inductive pyexc : Type :=
| RequestException (msg : pystr)   (* raised by requests.post *)
| JSONDecodeError                  (* raised by response.json() *)
| KeyError (k : pystr)
| TypeError
| AttributeError
| UnicodeEncodeError               (* raised by print *)
| SystemExit (code : Z).           (* raised by sys.exit *)

(** [except Exception] catches every exception of the run but [SystemExit],
    which derives from [BaseException] only. *)
Definition is_Exception (e : pyexc) : bool :=
  match e with
  | SystemExit _ => false
  | _ => true
  end.

Inductive outcome (A : Type) : Type :=
| Return (a : A)
| Raise (e : pyexc).

Arguments Return {A} a.
Arguments Raise {A} e.

Module Py.

Fixpoint dict_get (d : list (pystr * pyval)) (k : pystr) : option pyval :=
  match d with
  | [] => None
  | (k', v) :: d' => if PyStr.eqb k' k then Some v else dict_get d' k
  end.

(** [d[k] = v]: replace in place, or append a new key. *)
Fixpoint dict_set (d : list (pystr * pyval)) (k : pystr) (v : pyval)
  : list (pystr * pyval) :=
  match d with
  | [] => [(k, v)]
  | (k', v') :: d' =>
      if PyStr.eqb k' k then (k', v) :: d' else (k', v') :: dict_set d' k v
  end.

(** [len(v)] *)
Definition len (v : pyval) : outcome Z :=
  match v with
  | PStr s => Return (Z.of_nat (List.length s))
  | PSurr s => Return (Z.of_nat (List.length s))
  | PList l => Return (Z.of_nat (List.length l))
  | PDict d => Return (Z.of_nat (List.length d))
  | _ => Raise TypeError
  end.

(** The truth value of [v] in [if v:]. *)
Definition truthy (v : pyval) : bool :=
  match v with
  | PNone => false
  | PBool b => b
  | PInt z => negb (z =? 0)
  | PFloat f => negb (PrimFloat.eqb f PrimFloat.zero)
  | PStr s => match s with [] => false | _ => true end
  | PSurr s => match s with [] => false | _ => true end
  | PList l => match l with [] => false | _ => true end
  | PDict d => match d with [] => false | _ => true end
  end.

(** The truth value of an [Optional[str]] in [if user_id:]. *)
Definition truthy_opt (o : option pystr) : bool :=
  match o with
  | Some (_ :: _) => true
  | _ => false
  end.

(** [v[k]] for a string key [k]. *)
Definition getitem (v : pyval) (k : pystr) : outcome pyval :=
  match v with
  | PDict d =>
      match dict_get d k with
      | Some x => Return x
      | None => Raise (KeyError k)
      end
  | _ => Raise TypeError
  end.

(** [v[:n]].  A dict refuses a slice (with a [TypeError] or a [KeyError],
    by interpreter version; both are [Exception]s). *)
Definition slice_to (v : pyval) (n : nat) : outcome pyval :=
  match v with
  | PStr s => Return (PStr (firstn n s))
  | PSurr s => Return (PSurr (firstn n s))
  | PList l => Return (PList (firstn n l))
  | _ => Raise TypeError
  end.

(** The items [for x in v] visits. *)
Definition iter (v : pyval) : outcome (list pyval) :=
  match v with
  | PList l => Return l
  | PStr s => Return (map (fun c => PStr [c]) s)
  | PSurr s => Return (map (fun c => PSurr [c]) s)
  | PDict d => Return (map (fun kv => PStr (fst kv)) d)
  | _ => Raise TypeError
  end.

Definition dict_get_or (d : list (pystr * pyval)) (k : pystr) (default : pyval)
  : pyval :=
  match dict_get d k with
  | Some x => x
  | None => default
  end.

(** [v.get(k, default)]: only a dict has the method. *)
Definition get (v : pyval) (k : pystr) (default : pyval) : outcome pyval :=
  match v with
  | PDict d => Return (dict_get_or d k default)
  | _ => Raise AttributeError
  end.

Definition is_str (k : pystr) (v : pyval) : bool :=
  match v with
  | PStr s => PyStr.eqb s k
  | PSurr s => ustr_eqb s (plain k)
  | _ => false
  end.

(** [k in v] for a string [k]. *)
Definition contains (k : pystr) (v : pyval) : outcome bool :=
  match v with
  | PDict d => Return (match dict_get d k with Some _ => true | None => false end)
  | PList l => Return (existsb (is_str k) l)
  | PStr s => Return (PyStr.contains k s)
  | PSurr s => Return (ucontains (plain k) s)
  | _ => Raise TypeError
  end.

End Py.

(** ** The world the harness runs in *)

(** The arguments of one [requests.post(url, headers=..., json=...)]. *)
Record Request : Type := mkRequest {
  rq_url : pystr;
  rq_headers : list (pystr * pystr);
  rq_json : option pyval              (* [None]: no [json=] keyword *)
}.

Record Response : Type := mkResponse {
  status_code : Z;
  text : pystr;
  json_body : option pyval            (* [None]: the body is not JSON *)
}.

(** The namespace [parser.parse_args()] returns for the parser of lines
    193-207: the two required options, the five [store_true] flags and the
    two optional values ([None] when not given). *)
Record Args : Type := mkArgs {
  arg_supabase_url : pystr;
  arg_supabase_key : pystr;
  arg_test_token_registration : bool;
  arg_test_edge_function : bool;
  arg_send_test_notification : bool;
  arg_user_id : option pystr;
  arg_test_all_users : bool;
  arg_get_user_tokens : option pystr;
  arg_run_all_tests : bool
}.

(** What the harness does not define itself: the remote side reached by
    [requests.post] (a transport fault is [inl], with its message), the
    clock read by [int(time.time())], the interpreter's rendering of
    containers, floats and exceptions inside an f-string (the rendering
    escapes a lone surrogate), and what [argparse] makes of the command
    line: the namespace, or ([inl]) the text it writes to standard output
    (the help) and the status it leaves the process with. *)
Class Runtime : Type := {
  Env : Type;
  requests_post : Env -> Request -> Env * (pystr + Response);
  time_time : Env -> Z;
  py_repr : pyval -> pystr;
  str_exc : pyexc -> pystr;
  argparse_parse_args : Env -> (list pystr * Z) + Args
}.

(** The methods the dispatcher may call, recorded on entry. *)
Inductive Call : Type :=
| CallHealth
| CallTokenRegistration
| CallSend (user_id : option pystr) (test_all_users : bool)
| CallUserTokens (user_id : pystr).

Section Harness.

Context {RT : Runtime}.

Record World : Type := mkWorld {
  env : Env;
  stdout : list pystr;          (* one entry per call of print *)
  sent : list Request;          (* requests handed to requests.post *)
  trace : list Call             (* methods entered, oldest first *)
}.

Definition M (A : Type) : Type := World -> World * outcome A.

Definition ret {A} (a : A) : M A := fun w => (w, Return a).

Definition bind {A B} (m : M A) (k : A -> M B) : M B :=
  fun w =>
    match m w with
    | (w', Return a) => k a w'
    | (w', Raise e) => (w', Raise e)
    end.

Definition raise {A} (e : pyexc) : M A := fun w => (w, Raise e).

Definition lift {A} (r : outcome A) : M A := fun w => (w, r).

(** [try: body except Exception as e: handler(e)] *)
Definition try_except {A} (body : M A) (handler : pyexc -> M A) : M A :=
  fun w =>
    match body w with
    | (w', Return a) => (w', Return a)
    | (w', Raise e) =>
        if is_Exception e then handler e w' else (w', Raise e)
    end.

(** The world after [lines] were printed. *)
Definition out (w : World) (lines : list pystr) : World :=
  mkWorld (env w) (stdout w ++ lines) (sent w) (trace w).

(** [print(s)]: the line is written whole, or the encoder refuses it and
    nothing is written. *)
Definition print (s : ustr) : M unit :=
  fun w =>
    match encode s with
    | Some line => (out w [line], Return tt)
    | None => (w, Raise UnicodeEncodeError)
    end.

(** Not a statement of the source: the record, on entry of a method, that
    it was called and with what. *)
Definition enter (c : Call) : M unit :=
  fun w => (mkWorld (env w) (stdout w) (sent w) (trace w ++ [c]), Return tt).

(** [requests.post(u, headers=h, json=j)] *)
Definition post (u : pystr) (h : list (pystr * pystr)) (j : option pyval)
  : M Response :=
  fun w =>
    let rq := mkRequest u h j in
    let '(e', reply) := requests_post (env w) rq in
    let w' := mkWorld e' (stdout w) (sent w ++ [rq]) (trace w) in
    match reply with
    | inl msg => (w', Raise (RequestException msg))
    | inr resp => (w', Return resp)
    end.

(** [int(time.time())] *)
Definition now : M Z := fun w => (w, Return (time_time (env w))).

Definition sys_exit {A} (code : Z) : M A := raise (SystemExit code).

(** [response.json()] *)
Definition response_json (r : Response) : M pyval :=
  match json_body r with
  | Some v => ret v
  | None => raise JSONDecodeError
  end.

(** [parser.parse_args()] (line 209): on a command line it refuses, and
    for the help, [argparse] leaves through [sys.exit]. *)
Definition parse_args : M Args :=
  fun w =>
    match argparse_parse_args (env w) with
    | inl (written, status) => (out w written, Raise (SystemExit status))
    | inr args => (w, Return args)
    end.

End Harness.

Declare Scope py_scope.
Delimit Scope py_scope with py.
Notation "x <- m ;; k" := (bind m (fun x => k))
  (at level 61, m at next level, right associativity) : py_scope.
Notation "m ;; k" := (bind m (fun _ => k))
  (at level 61, right associativity) : py_scope.
Infix "+++" := (@app N) (at level 60, right associativity) : py_scope.
(** The text of an f-string before a value it formats. *)
Notation "a +> u" := (plain a ++ u)
  (at level 60, right associativity) : py_scope.

Local Open Scope py_scope.

(** ** The tester and the dispatcher *)

Section Tester.

Context {RT : Runtime}.

(** The text an f-string puts in place of [{v}]. *)
Definition fmt (v : pyval) : ustr :=
  match v with
  | PStr s => plain s
  | PSurr s => s
  | PNone => plain (lit "None")
  | PBool true => plain (lit "True")
  | PBool false => plain (lit "False")
  | PInt z => plain (str_int z)
  | _ => plain (py_repr v)
  end.

Definition fmt_opt (o : option pystr) : pystr :=
  match o with
  | Some s => s
  | None => lit "None"
  end.

Definition val_opt (o : option pystr) : pyval :=
  match o with
  | Some s => PStr s
  | None => PNone
  end.

(** [for i, x in enumerate(items): body], counting from [i]. *)
Fixpoint for_enumerate {A} (i : Z) (items : list A) (body : Z -> A -> M unit)
  : M unit :=
  match items with
  | [] => ret tt
  | x :: rest => body i x ;; for_enumerate (i + 1) rest body
  end.

Record FCMTester : Type := mkFCMTester {
  supabase_url : pystr;
  supabase_anon_key : pystr;
  headers : list (pystr * pystr)
}.

(** [FCMTester.__init__] *)
Definition FCMTester_init (supabase_url supabase_anon_key : pystr) : FCMTester :=
  mkFCMTester
    (rstrip SLASH supabase_url)
    supabase_anon_key
    [ (lit "apikey", supabase_anon_key);
      (lit "Authorization", lit "Bearer " +++ supabase_anon_key);
      (lit "Content-Type", lit "application/json") ].

(** The body of the loop of [test_token_registration] (lines 51-56). *)
Definition show_active_token (i : Z) (token : pyval) : M unit :=
  user <- lift (Py.getitem token (lit "user_id")) ;;
  print (lit "  " +> str_int (i + 1) +> lit ". User: " +> fmt user) ;;
  tok <- lift (Py.getitem token (lit "token")) ;;
  tok20 <- lift (Py.slice_to tok 20) ;;
  print (lit "     Token: " +> fmt tok20 ++ plain (lit "...")) ;;
  device <- lift (Py.getitem token (lit "device_id")) ;;
  print (lit "     Device: " +> fmt device) ;;
  platform <- lift (Py.getitem token (lit "platform")) ;;
  print (lit "     Platform: " +> fmt platform) ;;
  updated <- lift (Py.getitem token (lit "updated_at")) ;;
  print (lit "     Updated: " +> fmt updated) ;;
  print (plain []).

Definition test_token_registration (self : FCMTester) : M bool :=
  enter CallTokenRegistration ;;
  print (plain (MAGNIFIER :: lit " Testing FCM token registration...")) ;;
  try_except
    (response <- post
         (supabase_url self +++ lit "/rest/v1/rpc/get_all_active_fcm_tokens")
         (headers self) None ;;
     if status_code response =? 200 then
       tokens <- response_json response ;;
       n <- lift (Py.len tokens) ;;
       print (plain (CHECK_MARK :: lit " Found " +++ str_int n
                +++ lit " active FCM tokens in database")) ;;
       (if Py.truthy tokens then
          print (plain (NL :: PHONE :: lit " Active FCM tokens:")) ;;
          first5 <- lift (Py.slice_to tokens 5) ;;
          items <- lift (Py.iter first5) ;;
          for_enumerate 0 items show_active_token
        else
          print (plain (WARNING +++ lit "  No active FCM tokens found. Make sure to register tokens from your iOS app first."))) ;;
       ret true
     else
       print (plain (CROSS_MARK :: lit " Failed to get FCM tokens: "
                +++ str_int (status_code response))) ;;
       print (plain (lit "Response: " +++ text response)) ;;
       ret false)
    (fun e =>
       print (plain (CROSS_MARK :: lit " Error testing token registration: " +++ str_exc e)) ;;
       ret false).

(** The body of the loop of [send_test_notification] (lines 113-114). *)
Definition show_device_result (i : Z) (res : pyval) : M unit :=
  device <- lift (Py.getitem res (lit "device_id")) ;;
  platform <- lift (Py.getitem res (lit "platform")) ;;
  print (lit "     " +> str_int (i + 1) +> lit ". Device: "
           +> fmt device ++ lit " (" +> fmt platform ++ plain (lit ")")) ;;
  tok <- lift (Py.getitem res (lit "token")) ;;
  print (lit "        Token: " +> fmt tok).

(** The payload [send_test_notification] prepares (lines 82-95); [t] is
    [int(time.time())]. *)
Definition notification_payload
    (user_id : option pystr) (test_all_users : bool) (t : Z)
  : list (pystr * pyval) :=
  let payload :=
    [ (lit "title", PStr (TEST_TUBE :: lit " Test Notification"));
      (lit "body", PStr (lit "This is a test notification from the FCM testing script"));
      (lit "type", PStr (lit "test"));
      (lit "data", PDict [ (lit "test_id", PStr (lit "test_" +++ str_int t));
                           (lit "source", PStr (lit "testing_script")) ]) ] in
  let payload :=
    if Py.truthy_opt user_id
    then Py.dict_set payload (lit "user_id") (val_opt user_id)
    else payload in
  let payload :=
    if test_all_users
    then Py.dict_set payload (lit "test_all_users") (PBool true)
    else payload in
  payload.

(** [send_test_notification] from the payload on (lines 81-132), reached
    when the call has a target. *)
Definition dispatch_notification
    (self : FCMTester) (user_id : option pystr) (test_all_users : bool) : M bool :=
  t <- now ;;
  let payload := notification_payload user_id test_all_users t in
  try_except
    (response <- post
         (supabase_url self +++ lit "/functions/v1/send-test-notification")
         (headers self) (Some (PDict payload)) ;;
     if status_code response =? 200 then
       result <- response_json response ;;
       print (plain (CHECK_MARK :: lit " Test notification sent successfully!")) ;;
       message <- lift (Py.get result (lit "message") (PStr (lit "No message"))) ;;
       print (lit "   Message: " +> fmt message) ;;
       has_results <- lift (Py.contains (lit "results") result) ;;
       (if has_results then
          results <- lift (Py.getitem result (lit "results")) ;;
          n <- lift (Py.len results) ;;
          print (plain (lit "   Sent to " +++ str_int n +++ lit " device(s)")) ;;
          first3 <- lift (Py.slice_to results 3) ;;
          items <- lift (Py.iter first3) ;;
          for_enumerate 0 items show_device_result
        else ret tt) ;;
       has_summary <- lift (Py.contains (lit "summary") result) ;;
       (if has_summary then
          summary <- lift (Py.getitem result (lit "summary")) ;;
          print (plain (NL :: BAR_CHART :: lit " Summary:")) ;;
          total <- lift (Py.get summary (lit "total_tokens") (PStr (lit "N/A"))) ;;
          print (lit "   Total tokens: " +> fmt total) ;;
          type <- lift (Py.get summary (lit "notification_type") (PStr (lit "N/A"))) ;;
          print (lit "   Type: " +> fmt type) ;;
          title <- lift (Py.get summary (lit "title") (PStr (lit "N/A"))) ;;
          print (lit "   Title: " +> fmt title) ;;
          body <- lift (Py.get summary (lit "body") (PStr (lit "N/A"))) ;;
          print (lit "   Body: " +> fmt body)
        else ret tt) ;;
       ret true
     else
       print (plain (CROSS_MARK :: lit " Failed to send test notification: "
                +++ str_int (status_code response))) ;;
       print (plain (lit "Response: " +++ text response)) ;;
       ret false)
    (fun e =>
       print (plain (CROSS_MARK :: lit " Error sending test notification: " +++ str_exc e)) ;;
       ret false).

Definition send_test_notification
    (self : FCMTester) (user_id : option pystr) (test_all_users : bool) : M bool :=
  enter (CallSend user_id test_all_users) ;;
  print (plain (OUTBOX :: lit " Sending test notification...")) ;;
  if Py.truthy_opt user_id then
    print (plain (lit "   Target: User " +++ fmt_opt user_id)) ;;
    dispatch_notification self user_id test_all_users
  else if test_all_users then
    print (plain (lit "   Target: All users")) ;;
    dispatch_notification self user_id test_all_users
  else
    print (plain (CROSS_MARK :: lit " Either user_id or test_all_users must be specified")) ;;
    ret false.

Definition test_edge_function_health (self : FCMTester) : M bool :=
  enter CallHealth ;;
  print (plain (MAGNIFIER :: lit " Testing edge function health...")) ;;
  try_except
    (response <- post
         (supabase_url self +++ lit "/functions/v1/send-test-notification")
         (headers self)
         (Some (PDict [ (lit "test", PStr (lit "health_check")) ])) ;;
     if (status_code response =? 200) || (status_code response =? 400) then
       print (plain (CHECK_MARK :: lit " Edge function is accessible")) ;;
       ret true
     else
       print (plain (CROSS_MARK :: lit " Edge function returned unexpected status: "
                +++ str_int (status_code response))) ;;
       print (plain (lit "Response: " +++ text response)) ;;
       ret false)
    (fun e =>
       print (plain (CROSS_MARK :: lit " Error testing edge function: " +++ str_exc e)) ;;
       ret false).

(** The body of the loop of [get_user_fcm_tokens] (lines 175-180). *)
Definition show_user_token (i : Z) (token : pyval) : M unit :=
  tok <- lift (Py.getitem token (lit "token")) ;;
  tok20 <- lift (Py.slice_to tok 20) ;;
  print (lit "  " +> str_int (i + 1) +> lit ". Token: "
           +> fmt tok20 ++ plain (lit "...")) ;;
  device <- lift (Py.getitem token (lit "device_id")) ;;
  print (lit "     Device: " +> fmt device) ;;
  platform <- lift (Py.getitem token (lit "platform")) ;;
  print (lit "     Platform: " +> fmt platform) ;;
  version <- lift (Py.getitem token (lit "app_version")) ;;
  print (lit "     App Version: " +> fmt version) ;;
  updated <- lift (Py.getitem token (lit "updated_at")) ;;
  print (lit "     Updated: " +> fmt updated) ;;
  print (plain []).

Definition get_user_fcm_tokens (self : FCMTester) (user_id : pystr) : M bool :=
  enter (CallUserTokens user_id) ;;
  print (plain (MAGNIFIER :: lit " Getting FCM tokens for user: " +++ user_id)) ;;
  try_except
    (response <- post
         (supabase_url self +++ lit "/rest/v1/rpc/get_user_fcm_tokens")
         (headers self)
         (Some (PDict [ (lit "p_user_id", PStr user_id) ])) ;;
     if status_code response =? 200 then
       tokens <- response_json response ;;
       n <- lift (Py.len tokens) ;;
       print (plain (CHECK_MARK :: lit " Found " +++ str_int n
                +++ lit " FCM tokens for user " +++ user_id)) ;;
       items <- lift (Py.iter tokens) ;;
       for_enumerate 0 items show_user_token ;;
       ret true
     else
       print (plain (CROSS_MARK :: lit " Failed to get user FCM tokens: "
                +++ str_int (status_code response))) ;;
       print (plain (lit "Response: " +++ text response)) ;;
       ret false)
    (fun e =>
       print (plain (CROSS_MARK :: lit " Error getting user FCM tokens: " +++ str_exc e)) ;;
       ret false).

(** [total_tests += 1; if test(): success_count += 1] on the two counters
    [(success_count, total_tests)]. *)
Definition tally (test : M bool) (counts : Z * Z) : M (Z * Z) :=
  let '(success_count, total_tests) := counts in
  let total_tests := total_tests + 1 in
  ok <- test ;;
  ret (if ok then success_count + 1 else success_count, total_tests).

(** [main] from the counters' initialisation to the last test. *)
Definition run_tests (args : Args) (tester : FCMTester) : M (Z * Z) :=
  let counts := (0, 0) in
  if arg_run_all_tests args then
    print (plain (ROCKET :: lit " Running all FCM tests..." +++ [NL])) ;;
    counts <- tally (test_edge_function_health tester) counts ;;
    print (plain []) ;;
    counts <- tally (test_token_registration tester) counts ;;
    print (plain []) ;;
    counts <- tally (send_test_notification tester None true) counts ;;
    print (plain []) ;;
    ret counts
  else
    counts <- (if arg_test_edge_function args
               then tally (test_edge_function_health tester) counts
               else ret counts) ;;
    counts <- (if arg_test_token_registration args
               then tally (test_token_registration tester) counts
               else ret counts) ;;
    counts <- (if arg_send_test_notification args
               then tally (send_test_notification tester
                             (arg_user_id args) (arg_test_all_users args)) counts
               else ret counts) ;;
    counts <- (if Py.truthy_opt (arg_get_user_tokens args)
               then tally (get_user_fcm_tokens tester
                             (fmt_opt (arg_get_user_tokens args))) counts
               else ret counts) ;;
    ret counts.

(** The summary and the exit status, from the two counters. *)
Definition report (counts : Z * Z) : M unit :=
  let '(success_count, total_tests) := counts in
  print (plain (NL :: BAR_CHART :: lit " Test Results: " +++ str_int success_count
           +++ lit "/" +++ str_int total_tests +++ lit " tests passed")) ;;
  if success_count =? total_tests then
    print (plain (PARTY :: lit " All tests passed!")) ;;
    sys_exit 0
  else
    print (plain (CROSS_MARK :: lit " Some tests failed. Check the output above for details.")) ;;
    sys_exit 1.

(** [main] from line 211 on: what it does with the namespace [args]. *)
Definition main (args : Args) : M unit :=
  let tester := FCMTester_init (arg_supabase_url args) (arg_supabase_key args) in
  counts <- run_tests args tester ;;
  report counts.

(** The whole of [main()] (lines 192-268), as the script calls it: the
    command line is parsed first, and a run that [argparse] ends goes no
    further. *)
Definition script : M unit :=
  args <- parse_args ;;
  main args.

End Tester.

(** ** The CSV utility (fix_timestamps.py) *)

(** The loop of [fix_timestamps] over the rows the reader yields, counted
    from [row_num]: the result is the rows handed to [writer.writerow], in
    order.  [current_timestamp] is the formatted [datetime.now()]; the
    files and the CSV syntax stay with the [csv] module. *)
Fixpoint fix_rows (current_timestamp : pystr) (row_num : Z)
    (rows : list (list pystr)) : list (list pystr) :=
  match rows with
  | [] => []
  | row :: rest =>
      (if row_num =? 0 then [ row ]
       else if Z.of_nat (List.length row) >=? 6
            then [ row ++ [ current_timestamp; current_timestamp ] ]
            else [])
      ++ fix_rows current_timestamp (row_num + 1) rest
  end.

Definition fix_timestamps (current_timestamp : pystr) (rows : list (list pystr))
  : list (list pystr) :=
  fix_rows current_timestamp 0 rows.

(** A data row with enough fields to be kept. *)
Definition wide (row : list pystr) : bool := (6 <=? List.length row)%nat.

(** * Part II: the vocabulary of the properties *)

Section Vocabulary.

Context {RT : Runtime}.

(** A computation that only prints: the lines and the outcome do not
    depend on the world it starts in. *)
Definition emits {A} (m : M A) (lines : list pystr) (r : outcome A) : Prop :=
  forall w, m w = (out w lines, r).

(** What [view] reads from each of [items], when it can read them all. *)
Fixpoint views {A F} (view : A -> option F) (items : list A) : option (list F) :=
  match items with
  | [] => Some []
  | x :: rest =>
      match view x, views view rest with
      | Some f, Some fs => Some (f :: fs)
      | _, _ => None
      end
  end.

(** The lines of a listing whose entries are numbered from [i + 1]. *)
Fixpoint listing {F} (lines : Z -> F -> list pystr) (i : Z) (fs : list F)
  : list pystr :=
  match fs with
  | [] => []
  | f :: rest => lines i f ++ listing lines (i + 1) rest
  end.

(** A loop body prints [lines] for an item [view] can read, and raises an
    [Exception] on any other item. *)
Definition body_spec {A F} (body : Z -> A -> M unit)
    (view : A -> option F) (lines : Z -> F -> list pystr) : Prop :=
  forall i x,
    match view x with
    | Some f => emits (body i x) (lines i f) (Return tt)
    | None => exists ls e, emits (body i x) ls (Raise e) /\ is_Exception e = true
    end.

(** The text [print] writes for [{v}] in an f-string: none for a str that
    holds a lone surrogate. *)
Definition shown (v : pyval) : option pystr := encode (fmt v).

(** The text of a value that can be written. *)
Definition text_of (v : pyval) : pystr :=
  match shown v with
  | Some s => s
  | None => []
  end.

(** [v] can be written in an f-string. *)
Definition writable (v : pyval) : bool :=
  match shown v with
  | Some _ => true
  | None => false
  end.

(** The text written for the field [k] of a dict; for its first [n]
    characters or items. *)
Definition shown_field (d : list (pystr * pyval)) (k : string) : option pystr :=
  match Py.dict_get d (lit k) with
  | Some v => shown v
  | None => None
  end.

Definition shown_cut (d : list (pystr * pyval)) (k : string) (n : nat)
  : option pystr :=
  match Py.dict_get d (lit k) with
  | Some v =>
      match Py.slice_to v n with
      | Return cut => shown cut
      | Raise _ => None
      end
  | None => None
  end.

(** The texts [show_active_token] writes for an item, when it can read and
    write them all: user, token cut to 20, device, platform, update
    time. *)
Definition active_token_view (token : pyval)
  : option (pystr * pystr * pystr * pystr * pystr) :=
  match token with
  | PDict d =>
      match shown_field d "user_id", shown_cut d "token" 20,
            shown_field d "device_id", shown_field d "platform",
            shown_field d "updated_at" with
      | Some user, Some tok20, Some device, Some platform, Some updated =>
          Some (user, tok20, device, platform, updated)
      | _, _, _, _, _ => None
      end
  | _ => None
  end.

(** The lines [show_active_token] prints for them. *)
Definition active_token_lines (i : Z)
    (f : pystr * pystr * pystr * pystr * pystr) : list pystr :=
  let '(user, tok20, device, platform, updated) := f in
  [ lit "  " +++ str_int (i + 1) +++ lit ". User: " +++ user;
    lit "     Token: " +++ tok20 +++ lit "...";
    lit "     Device: " +++ device;
    lit "     Platform: " +++ platform;
    lit "     Updated: " +++ updated;
    [] ].

(** The texts [show_user_token] writes: token cut to 20, device, platform,
    application version, update time. *)
Definition user_token_view (token : pyval)
  : option (pystr * pystr * pystr * pystr * pystr) :=
  match token with
  | PDict d =>
      match shown_cut d "token" 20, shown_field d "device_id",
            shown_field d "platform", shown_field d "app_version",
            shown_field d "updated_at" with
      | Some tok20, Some device, Some platform, Some version, Some updated =>
          Some (tok20, device, platform, version, updated)
      | _, _, _, _, _ => None
      end
  | _ => None
  end.

(** The lines [show_user_token] prints for them. *)
Definition user_token_lines (i : Z)
    (f : pystr * pystr * pystr * pystr * pystr) : list pystr :=
  let '(tok20, device, platform, version, updated) := f in
  [ lit "  " +++ str_int (i + 1) +++ lit ". Token: " +++ tok20 +++ lit "...";
    lit "     Device: " +++ device;
    lit "     Platform: " +++ platform;
    lit "     App Version: " +++ version;
    lit "     Updated: " +++ updated;
    [] ].

(** The texts [show_device_result] writes: device, platform, token. *)
Definition device_result_view (res : pyval) : option (pystr * pystr * pystr) :=
  match res with
  | PDict d =>
      match shown_field d "device_id", shown_field d "platform",
            shown_field d "token" with
      | Some device, Some platform, Some tok => Some (device, platform, tok)
      | _, _, _ => None
      end
  | _ => None
  end.

(** The lines [show_device_result] prints for them. *)
Definition device_result_lines (i : Z) (f : pystr * pystr * pystr) : list pystr :=
  let '(device, platform, tok) := f in
  [ lit "     " +++ str_int (i + 1) +++ lit ". Device: "
      +++ device +++ lit " (" +++ platform +++ lit ")";
    lit "        Token: " +++ tok ].

(** [view] can read every item. *)
Definition viewed {A F} (view : A -> option F) (items : list A) : bool :=
  match views view items with
  | Some _ => true
  | None => false
  end.

Definition is_nil {A} (l : list A) : bool :=
  match l with
  | [] => true
  | _ => false
  end.

(** The outcome of a method whose [try] block judges a response by [ok]:
    a transport fault is a failure. *)
Definition verdict (ok : Response -> bool) (reply : pystr + Response) : bool :=
  match reply with
  | inl _ => false
  | inr resp => ok resp
  end.

(** What the block after the request does with a response: it prints and
    returns [ok resp], or raises an [Exception] where [ok resp] is false. *)
Definition judges (k : Response -> M bool) (ok : Response -> bool) : Prop :=
  forall resp, exists ls r,
    emits (k resp) ls r
    /\ match r with
       | Return b => b = ok resp
       | Raise e => is_Exception e = true /\ ok resp = false
       end.

(** An [except] block prints and returns false. *)
Definition reports_failure (handler : pyexc -> M bool) : Prop :=
  forall e, exists ls, emits (handler e) ls (Return false).

(** The world a method leaves: the remote side after the one request,
    the new lines, the request and the call recorded. *)
Definition after (w : World) (rq : Request) (c : Call) (lines : list pystr)
  : World :=
  mkWorld (fst (requests_post (env w) rq)) (stdout w ++ lines)
          (sent w ++ [rq]) (trace w ++ [c]).

(** The request of [test_token_registration]. *)
Definition registration_request (self : FCMTester) : Request :=
  mkRequest (supabase_url self +++ lit "/rest/v1/rpc/get_all_active_fcm_tokens")
            (headers self) None.

(** A response the token-registration check takes for a success. *)
Definition registration_ok (resp : Response) : bool :=
  (status_code resp =? 200)
  && match json_body resp with
     | Some (PList items) => viewed active_token_view (firstn 5 items)
     | Some (PStr s) => is_nil s
     | Some (PSurr s) => is_nil s
     | Some (PDict d) => is_nil d
     | _ => false
     end.

(** The request of [test_edge_function_health], and the responses it takes
    for a success. *)
Definition health_request (self : FCMTester) : Request :=
  mkRequest (supabase_url self +++ lit "/functions/v1/send-test-notification")
            (headers self)
            (Some (PDict [ (lit "test", PStr (lit "health_check")) ])).

Definition health_ok (resp : Response) : bool :=
  (status_code resp =? 200) || (status_code resp =? 400).

(** The request of [get_user_fcm_tokens], and the responses it takes for a
    success. *)
Definition user_tokens_request (self : FCMTester) (user_id : pystr) : Request :=
  mkRequest (supabase_url self +++ lit "/rest/v1/rpc/get_user_fcm_tokens")
            (headers self)
            (Some (PDict [ (lit "p_user_id", PStr user_id) ])).

Definition user_tokens_ok (resp : Response) : bool :=
  (status_code resp =? 200)
  && match json_body resp with
     | Some (PList items) => viewed user_token_view items
     | Some (PStr s) => is_nil s
     | Some (PSurr s) => is_nil s
     | Some (PDict d) => is_nil d
     | _ => false
     end.

(** The request of [send_test_notification] at time [t]. *)
Definition send_request (self : FCMTester)
    (user_id : option pystr) (test_all_users : bool) (t : Z) : Request :=
  mkRequest (supabase_url self +++ lit "/functions/v1/send-test-notification")
            (headers self)
            (Some (PDict (notification_payload user_id test_all_users t))).

(** The [results] and the [summary] of a dispatch result may be absent;
    when present they must be readable, and what is shown of them, as the
    message, must be writable. *)
Definition results_ok (results : option pyval) : bool :=
  match results with
  | None => true
  | Some (PList items) => viewed device_result_view (firstn 3 items)
  | Some (PStr s) => is_nil s
  | Some (PSurr s) => is_nil s
  | Some _ => false
  end.

Definition summary_ok (summary : option pyval) : bool :=
  match summary with
  | None => true
  | Some (PDict sd) =>
      writable (Py.dict_get_or sd (lit "total_tokens") (PStr (lit "N/A")))
      && writable (Py.dict_get_or sd (lit "notification_type") (PStr (lit "N/A")))
      && writable (Py.dict_get_or sd (lit "title") (PStr (lit "N/A")))
      && writable (Py.dict_get_or sd (lit "body") (PStr (lit "N/A")))
  | Some _ => false
  end.

Definition send_ok (resp : Response) : bool :=
  (status_code resp =? 200)
  && match json_body resp with
     | Some (PDict d) =>
         writable (Py.dict_get_or d (lit "message") (PStr (lit "No message")))
         && results_ok (Py.dict_get d (lit "results"))
         && summary_ok (Py.dict_get d (lit "summary"))
     | _ => false
     end.

(** The call has a target: [user_id] is a non-empty string or
    [test_all_users] is set. *)
Definition has_target (user_id : option pystr) (test_all_users : bool) : bool :=
  Py.truthy_opt user_id || test_all_users.

(** A method call as the dispatcher sees it: it returns a boolean, never
    raises, records itself as [c], only adds to the output, and posts at
    most one request. *)
Definition runs (m : M bool) (c : Call) : Prop :=
  forall w, exists w' b,
    m w = (w', Return b)
    /\ trace w' = trace w ++ [c]
    /\ (exists lines, stdout w' = stdout w ++ lines)
    /\ (sent w' = sent w \/ exists rq, sent w' = sent w ++ [rq]).

(** The calls of a run, by the flags: all three checks in aggregate mode;
    in selective mode the checks asked for, the per-user lookup only for
    a non-empty identifier. *)
Definition executed (args : Args) : list Call :=
  if arg_run_all_tests args then
    [ CallHealth; CallTokenRegistration; CallSend None true ]
  else
    (if arg_test_edge_function args then [CallHealth] else [])
    ++ (if arg_test_token_registration args then [CallTokenRegistration] else [])
    ++ (if arg_send_test_notification args
        then [CallSend (arg_user_id args) (arg_test_all_users args)] else [])
    ++ (if Py.truthy_opt (arg_get_user_tokens args)
        then [CallUserTokens (fmt_opt (arg_get_user_tokens args))] else []).

(** A part of the run that starts with the counters [c0] and makes the
    calls [calls]: it ends normally, with the calls traced and counted. *)
Definition counts_calls (m : M (Z * Z)) (calls : list Call) (c0 : Z * Z) : Prop :=
  forall w, exists w' c,
    m w = (w', Return c)
    /\ trace w' = trace w ++ calls
    /\ snd c = snd c0 + Z.of_nat (List.length calls)
    /\ fst c0 <= fst c <= fst c0 + Z.of_nat (List.length calls)
    /\ (exists lines, stdout w' = stdout w ++ lines).

(** The flags of a command line that gives only the two required options. *)
Definition no_flags : Args :=
  mkArgs (lit "https://project.supabase.co") (lit "anon-key")
         false false false None false None false.

(** [args] with another value of [--get-user-tokens], of [--run-all-tests]. *)
Definition with_get_user_tokens (args : Args) (o : option pystr) : Args :=
  mkArgs (arg_supabase_url args) (arg_supabase_key args)
         (arg_test_token_registration args) (arg_test_edge_function args)
         (arg_send_test_notification args) (arg_user_id args)
         (arg_test_all_users args) o (arg_run_all_tests args).

Definition with_run_all_tests (args : Args) (b : bool) : Args :=
  mkArgs (arg_supabase_url args) (arg_supabase_key args)
         (arg_test_token_registration args) (arg_test_edge_function args)
         (arg_send_test_notification args) (arg_user_id args)
         (arg_test_all_users args) (arg_get_user_tokens args) b.

(** The process exit status of a run of [main]. *)
Definition exit_status {A} (r : outcome A) : option Z :=
  match r with
  | Raise (SystemExit code) => Some code
  | _ => None
  end.

(** The calls the claim about selective mode asks for: one per flag that
    was supplied, in the fixed order. *)
Definition requested (args : Args) : list Call :=
  if arg_run_all_tests args then
    [ CallHealth; CallTokenRegistration; CallSend None true ]
  else
    (if arg_test_edge_function args then [CallHealth] else [])
    ++ (if arg_test_token_registration args then [CallTokenRegistration] else [])
    ++ (if arg_send_test_notification args
        then [CallSend (arg_user_id args) (arg_test_all_users args)] else [])
    ++ (match arg_get_user_tokens args with
        | Some user_id => [CallUserTokens user_id]
        | None => []
        end).

(** The four operations, and the one a call belongs to. *)
Inductive Operation : Type :=
| OpHealth
| OpTokenRegistration
| OpSend
| OpUserTokens.

Definition operation_of (c : Call) : Operation :=
  match c with
  | CallHealth => OpHealth
  | CallTokenRegistration => OpTokenRegistration
  | CallSend _ _ => OpSend
  | CallUserTokens _ => OpUserTokens
  end.

Definition operation_eqb (a b : Operation) : bool :=
  match a, b with
  | OpHealth, OpHealth
  | OpTokenRegistration, OpTokenRegistration
  | OpSend, OpSend
  | OpUserTokens, OpUserTokens => true
  | _, _ => false
  end.

(** [l] picks some of [order], each at most once, in the order of [order]. *)
Fixpoint in_order (l order : list Operation) : bool :=
  match l, order with
  | [], _ => true
  | _ :: _, [] => false
  | x :: l', y :: order' =>
      if operation_eqb x y then in_order l' order' else in_order l order'
  end.

Definition fixed_order : list Operation :=
  [ OpHealth; OpTokenRegistration; OpSend; OpUserTokens ].

(** A Device Token Record as the backend sends it: the token is a string
    without lone surrogates, the other fields are any JSON values. *)
Record DeviceTokenRecord : Type := mkDeviceTokenRecord {
  rec_user_id : pyval;
  rec_token : pystr;
  rec_device_id : pyval;
  rec_platform : pyval;
  rec_app_version : pyval;
  rec_updated_at : pyval
}.

(** One per-device outcome of a dispatch result. *)
Record DeviceResult : Type := mkDeviceResult {
  res_device_id : pyval;
  res_platform : pyval;
  res_token : pystr
}.

(** The field [k] of a JSON object. *)
Definition field (v : pyval) (k : string) : option pyval :=
  match v with
  | PDict d => Py.dict_get d (lit k)
  | _ => None
  end.

(** [v] carries the fields of [r] that the registration listing reads;
    those the per-user listing reads; those the send report reads. *)
Definition active_record (v : pyval) (r : DeviceTokenRecord) : Prop :=
  field v "user_id" = Some (rec_user_id r)
  /\ field v "token" = Some (PStr (rec_token r))
  /\ field v "device_id" = Some (rec_device_id r)
  /\ field v "platform" = Some (rec_platform r)
  /\ field v "updated_at" = Some (rec_updated_at r)
  /\ forallb writable [ rec_user_id r; rec_device_id r; rec_platform r;
                        rec_updated_at r ] = true.

Definition user_record (v : pyval) (r : DeviceTokenRecord) : Prop :=
  field v "token" = Some (PStr (rec_token r))
  /\ field v "device_id" = Some (rec_device_id r)
  /\ field v "platform" = Some (rec_platform r)
  /\ field v "app_version" = Some (rec_app_version r)
  /\ field v "updated_at" = Some (rec_updated_at r)
  /\ forallb writable [ rec_device_id r; rec_platform r; rec_app_version r;
                        rec_updated_at r ] = true.

Definition device_result (v : pyval) (r : DeviceResult) : Prop :=
  field v "device_id" = Some (res_device_id r)
  /\ field v "platform" = Some (res_platform r)
  /\ field v "token" = Some (PStr (res_token r))
  /\ forallb writable [ res_device_id r; res_platform r ] = true.

(** What the three listings show of a record, numbered [i + 1]. *)
Definition registration_listing (i : Z) (r : DeviceTokenRecord) : list pystr :=
  [ lit "  " +++ str_int (i + 1) +++ lit ". User: " +++ text_of (rec_user_id r);
    lit "     Token: " +++ firstn 20 (rec_token r) +++ lit "...";
    lit "     Device: " +++ text_of (rec_device_id r);
    lit "     Platform: " +++ text_of (rec_platform r);
    lit "     Updated: " +++ text_of (rec_updated_at r);
    [] ].

Definition user_listing (i : Z) (r : DeviceTokenRecord) : list pystr :=
  [ lit "  " +++ str_int (i + 1) +++ lit ". Token: "
      +++ firstn 20 (rec_token r) +++ lit "...";
    lit "     Device: " +++ text_of (rec_device_id r);
    lit "     Platform: " +++ text_of (rec_platform r);
    lit "     App Version: " +++ text_of (rec_app_version r);
    lit "     Updated: " +++ text_of (rec_updated_at r);
    [] ].

Definition result_listing (i : Z) (r : DeviceResult) : list pystr :=
  [ lit "     " +++ str_int (i + 1) +++ lit ". Device: "
      +++ text_of (res_device_id r) +++ lit " (" +++ text_of (res_platform r) +++ lit ")";
    lit "        Token: " +++ res_token r ].

(** The summary block of the send report. *)
Definition summary_lines (summary : option pyval) : list pystr :=
  match summary with
  | Some (PDict sd) =>
      [ NL :: BAR_CHART :: lit " Summary:";
        lit "   Total tokens: "
          +++ text_of (Py.dict_get_or sd (lit "total_tokens") (PStr (lit "N/A")));
        lit "   Type: "
          +++ text_of (Py.dict_get_or sd (lit "notification_type") (PStr (lit "N/A")));
        lit "   Title: " +++ text_of (Py.dict_get_or sd (lit "title") (PStr (lit "N/A")));
        lit "   Body: " +++ text_of (Py.dict_get_or sd (lit "body") (PStr (lit "N/A"))) ]
  | _ => []
  end.

(** The line that names the target of a send. *)
Definition target_line (user_id : option pystr) : pystr :=
  if Py.truthy_opt user_id
  then lit "   Target: User " +++ fmt_opt user_id
  else lit "   Target: All users".

(** The method behind a call, and the request it posts at time [t] (none
    for a send without a target). *)
Definition invoke (self : FCMTester) (c : Call) : M bool :=
  match c with
  | CallHealth => test_edge_function_health self
  | CallTokenRegistration => test_token_registration self
  | CallSend user_id test_all_users =>
      send_test_notification self user_id test_all_users
  | CallUserTokens user_id => get_user_fcm_tokens self user_id
  end.

Definition request_of (self : FCMTester) (c : Call) (t : Z) : option Request :=
  match c with
  | CallHealth => Some (health_request self)
  | CallTokenRegistration => Some (registration_request self)
  | CallSend user_id test_all_users =>
      if has_target user_id test_all_users
      then Some (send_request self user_id test_all_users t)
      else None
  | CallUserTokens user_id => Some (user_tokens_request self user_id)
  end.

(** The fields each listing reads from an item. *)
Definition registration_fields : list string :=
  [ "user_id"; "token"; "device_id"; "platform"; "updated_at" ]%string.

Definition user_token_fields : list string :=
  [ "token"; "device_id"; "platform"; "app_version"; "updated_at" ]%string.

Definition device_result_fields : list string :=
  [ "device_id"; "platform"; "token" ]%string.

(** The report of a dispatch result, from the line after the target on. *)
Definition dispatch_report (d : list (pystr * pyval)) (n : nat)
    (outs : list DeviceResult) : list pystr :=
  [ CHECK_MARK :: lit " Test notification sent successfully!";
    lit "   Message: "
      +++ text_of (Py.dict_get_or d (lit "message") (PStr (lit "No message")));
    lit "   Sent to " +++ str_int (Z.of_nat n) +++ lit " device(s)" ]
  ++ listing result_listing 0 outs
  ++ summary_lines (Py.dict_get d (lit "summary")).

(** A call that posts a request: every call but a send without a target. *)
Definition posts (c : Call) : bool :=
  match c with
  | CallSend user_id test_all_users => has_target user_id test_all_users
  | _ => true
  end.

(** A part of the run that ends normally, makes the calls [calls] and takes
    a world to one that [R] relates to it through these calls. *)
Definition relates (R : World -> list Call -> World -> Prop)
    (m : M (Z * Z)) (calls : list Call) : Prop :=
  forall w, exists w' c, m w = (w', Return c) /\ R w calls w'.

(** The world after a call: the remote side and the requests move by the
    one request of the call, when it has one. *)
Definition left_by (self : FCMTester) (c : Call) (w : World) (lines : list pystr)
  : World :=
  match request_of self c (time_time (env w)) with
  | Some rq => after w rq c lines
  | None => mkWorld (env w) (stdout w ++ lines) (sent w) (trace w ++ [c])
  end.

(** The lines a method prints before it posts its request. *)
Definition banner_lines (c : Call) : list pystr :=
  match c with
  | CallHealth => [ MAGNIFIER :: lit " Testing edge function health..." ]
  | CallTokenRegistration => [ MAGNIFIER :: lit " Testing FCM token registration..." ]
  | CallSend user_id _ =>
      [ OUTBOX :: lit " Sending test notification..."; target_line user_id ]
  | CallUserTokens user_id =>
      [ MAGNIFIER :: lit " Getting FCM tokens for user: " +++ user_id ]
  end.

(** The start of the line a method prints for a caught exception, and for
    a status it does not accept. *)
Definition error_heading (c : Call) : pystr :=
  match c with
  | CallHealth => CROSS_MARK :: lit " Error testing edge function: "
  | CallTokenRegistration => CROSS_MARK :: lit " Error testing token registration: "
  | CallSend _ _ => CROSS_MARK :: lit " Error sending test notification: "
  | CallUserTokens _ => CROSS_MARK :: lit " Error getting user FCM tokens: "
  end.

Definition failure_heading (c : Call) : pystr :=
  match c with
  | CallHealth => CROSS_MARK :: lit " Edge function returned unexpected status: "
  | CallTokenRegistration => CROSS_MARK :: lit " Failed to get FCM tokens: "
  | CallSend _ _ => CROSS_MARK :: lit " Failed to send test notification: "
  | CallUserTokens _ => CROSS_MARK :: lit " Failed to get user FCM tokens: "
  end.

(** The statuses a method goes on with: 200, and for the health check 400
    as well. *)
Definition accepts (c : Call) (status : Z) : bool :=
  match c with
  | CallHealth => (status =? 200) || (status =? 400)
  | _ => status =? 200
  end.

(** The headers of a tester built for the key [key]. *)
Definition auth_headers (key : pystr) : list (pystr * pystr) :=
  [ (lit "apikey", key);
    (lit "Authorization", lit "Bearer " +++ key);
    (lit "Content-Type", lit "application/json") ].

(** The three paths the harness posts to. *)
Definition endpoint_paths : list pystr :=
  [ lit "/rest/v1/rpc/get_all_active_fcm_tokens";
    lit "/functions/v1/send-test-notification";
    lit "/rest/v1/rpc/get_user_fcm_tokens" ].

(** A str without lone surrogates; a value [print] can write in an
    f-string: every value but a str that holds one (a container is
    written with its strings escaped). *)
Definition clean (s : ustr) : bool :=
  forallb (fun c => match c with Char _ => true | Lone _ => false end) s.

Definition printable (v : pyval) : bool :=
  match v with
  | PSurr s => clean s
  | _ => true
  end.

(** [x] is an object whose field [k] can be written; whose field [k] can
    be cut to [n] and then written. *)
Definition prints_field (x : pyval) (k : string) : bool :=
  match x with
  | PDict d =>
      match Py.dict_get d (lit k) with
      | Some v => printable v
      | None => false
      end
  | _ => false
  end.




Definition shows_result (x : pyval) : bool :=
  prints_field x "device_id" && prints_field x "platform"
  && prints_field x "token".

(** The field [k] of a summary can be written, or is absent. *)
Definition prints_optional (d : list (pystr * pyval)) (k : string) : bool :=
  match Py.dict_get d (lit k) with
  | Some v => printable v
  | None => true
  end.



Definition send_succeeds (reply : pystr + Response) : bool :=
  match reply with
  | inl _ => false
  | inr resp =>
      (status_code resp =? 200)
      && match json_body resp with
         | Some (PDict d) =>
             prints_optional d "message"
             && match Py.dict_get d (lit "results") with
                | None => true
                | Some (PList items) => forallb shows_result (firstn 3 items)
                | Some (PStr []) => true
                | Some (PSurr []) => true
                | Some _ => false
                end
             && match Py.dict_get d (lit "summary") with
                | None => true
                | Some (PDict sd) =>
                    prints_optional sd "total_tokens"
                    && prints_optional sd "notification_type"
                    && prints_optional sd "title"
                    && prints_optional sd "body"
                | Some _ => false
                end
         | _ => false
         end
  end.

(** The part of the namespace a run depends on: in aggregate mode the
    address and the key only; in selective mode [--user-id] and
    [--test-all-users] count only with [--send-test-notification], and an
    empty [--get-user-tokens] counts as none. *)
Definition effective (args : Args) : Args :=
  if arg_run_all_tests args then
    mkArgs (arg_supabase_url args) (arg_supabase_key args)
           false false false None false None true
  else
    mkArgs (arg_supabase_url args) (arg_supabase_key args)
           (arg_test_token_registration args) (arg_test_edge_function args)
           (arg_send_test_notification args)
           (if arg_send_test_notification args then arg_user_id args else None)
           (arg_send_test_notification args && arg_test_all_users args)
           (if Py.truthy_opt (arg_get_user_tokens args)
            then arg_get_user_tokens args else None)
           false.

(** The replies a call takes for a success. *)
Definition succeeds (c : Call) (reply : pystr + Response) : bool :=
  match c with
  | CallHealth => verdict health_ok reply
  | CallTokenRegistration => verdict registration_ok reply
  | CallSend _ _ => verdict send_ok reply
  | CallUserTokens _ => verdict user_tokens_ok reply
  end.

(** What a call returns when the remote side is in the state [e], and the
    state it leaves. *)
Definition returns_at (self : FCMTester) (c : Call) (e : Env) : bool :=
  match request_of self c (time_time e) with
  | Some rq => succeeds c (snd (requests_post e rq))
  | None => false
  end.

Definition env_after (self : FCMTester) (c : Call) (e : Env) : Env :=
  match request_of self c (time_time e) with
  | Some rq => fst (requests_post e rq)
  | None => e
  end.

(** What the calls of a run return, one after the other, from the state
    [e] on; the state after them. *)
Fixpoint outcomes (self : FCMTester) (calls : list Call) (e : Env) : list bool :=
  match calls with
  | [] => []
  | c :: rest => returns_at self c e :: outcomes self rest (env_after self c e)
  end.

Fixpoint env_after_all (self : FCMTester) (calls : list Call) (e : Env) : Env :=
  match calls with
  | [] => e
  | c :: rest => env_after_all self rest (env_after self c e)
  end.

Definition passes (results : list bool) : Z :=
  Z.of_nat (List.length (filter (fun b : bool => b) results)).

(** A part of the run that starts with the counters [c0], makes the calls
    [calls] against the remote side and counts what they return. *)
Definition tallies (self : FCMTester) (m : M (Z * Z)) (calls : list Call)
    (c0 : Z * Z) : Prop :=
  forall w, exists w',
    m w = (w', Return (fst c0 + passes (outcomes self calls (env w)),
                       snd c0 + Z.of_nat (List.length calls)))
    /\ env w' = env_after_all self calls (env w).

(** What the call [c] returns when it is made with the remote side in the
    state [e], and the state it leaves the remote side in: both read off
    the method itself, run from a world that holds [e]. *)
Definition returned (self : FCMTester) (c : Call) (e : Env) : bool :=
  match snd (invoke self c (mkWorld e [] [] [])) with
  | Return b => b
  | Raise _ => false
  end.

Definition state_left (self : FCMTester) (c : Call) (e : Env) : Env :=
  env (fst (invoke self c (mkWorld e [] [] []))).

(** What the calls return when they are made one after the other. *)
Fixpoint results_of (self : FCMTester) (calls : list Call) (e : Env) : list bool :=
  match calls with
  | [] => []
  | c :: rest => returned self c e :: results_of self rest (state_left self c e)
  end.

End Vocabulary.

(** ** Scripted backends, for concrete runs *)

(** The remote side answers each request by [answer], whatever was asked
    before; the clock stands at [clock]. *)
Definition scripted (answer : Request -> pystr + Response) (clock : Z) : Runtime :=
  {| Env := unit;
     requests_post := fun e rq => (e, answer rq);
     time_time := fun _ => clock;
     py_repr := fun _ => lit "<object>";
     str_exc := fun _ => lit "<exception>";
     (* the command line of these runs is empty: the parser misses the
        required options *)
     argparse_parse_args := fun _ => inl ([], 2) |}.

(** The world before anything was printed, sent or called. *)
Definition fresh_world (RT : Runtime) (e : @Env RT) : @World RT :=
  mkWorld e [] [] [].

(** A project, a tester for it, one registered token and the dispatch
    result that names it. *)
Definition demo_url : pystr := lit "https://project.supabase.co".

Definition demo_tester : FCMTester :=
  FCMTester_init (lit "https://project.supabase.co/") (lit "anon-key").

Definition demo_record : pyval :=
  PDict [ (lit "user_id", PStr (lit "user-1"));
          (lit "token", PStr (lit "abcdefghijklmnopqrstuvwxyz0123456789"));
          (lit "device_id", PStr (lit "device-1"));
          (lit "platform", PStr (lit "ios"));
          (lit "app_version", PStr (lit "1.4.2"));
          (lit "updated_at", PStr (lit "2024-05-01T10:00:00Z")) ].

Definition demo_token_record : DeviceTokenRecord :=
  mkDeviceTokenRecord
    (PStr (lit "user-1")) (lit "abcdefghijklmnopqrstuvwxyz0123456789")
    (PStr (lit "device-1")) (PStr (lit "ios")) (PStr (lit "1.4.2"))
    (PStr (lit "2024-05-01T10:00:00Z")).

Definition demo_device_result : DeviceResult :=
  mkDeviceResult (PStr (lit "device-1")) (PStr (lit "ios"))
                 (lit "abcdefghijklmnopqrstuvwxyz0123456789").

Definition demo_dispatch_result : list (pystr * pyval) :=
  [ (lit "message", PStr (lit "Test notification sent"));
    (lit "results", PList [ demo_record ]);
    (lit "summary", PDict [ (lit "total_tokens", PInt 1);
                            (lit "notification_type", PStr (lit "test")) ]) ].

(** A 200 response with the JSON body [body]. *)
Definition ok_response (body : pyval) : pystr + Response :=
  inr (mkResponse 200 (lit "<body>") (Some body)).

(** A backend whose dispatch endpoint answers the health probe with 500 and
    everything else with success. *)
Definition demo_answer (rq : Request) : pystr + Response :=
  if PyStr.eqb (rq_url rq) (demo_url +++ lit "/rest/v1/rpc/get_all_active_fcm_tokens")
  then ok_response (PList [ demo_record ])
  else if PyStr.eqb (rq_url rq) (demo_url +++ lit "/rest/v1/rpc/get_user_fcm_tokens")
  then ok_response (PList [ demo_record ])
  else
    match rq_json rq with
    | Some (PDict d) =>
        match Py.dict_get d (lit "test") with
        | Some _ => inr (mkResponse 500 (lit "Internal Server Error") None)
        | None => ok_response (PDict demo_dispatch_result)
        end
    | _ => inl (lit "connection refused")
    end.

Definition demo : Runtime := scripted demo_answer 1700000000.

(** A backend with no registered token. *)
Definition empty_backend : Runtime :=
  scripted (fun _ => ok_response (PList [])) 1700000000.

(** A backend that accepts every request and answers with an empty object. *)
Definition accepting : Runtime :=
  scripted (fun _ => ok_response (PDict [])) 1700000000.

(** A backend that lists six tokens, the sixth an empty object. *)
Definition six_tokens : Runtime :=
  scripted (fun _ => ok_response
              (PList [ demo_record; demo_record; demo_record; demo_record;
                       demo_record; PDict [] ]))
           1700000000.

(** A backend whose token list holds an empty object, and whose dispatch
    endpoint cannot be reached. *)
Definition broken_answer (rq : Request) : pystr + Response :=
  match rq_json rq with
  | None => ok_response (PList [ PDict [] ])
  | Some _ => inl (lit "connection refused")
  end.

Definition broken : Runtime := scripted broken_answer 1700000000.

(** Two command lines: [--run-all-tests], and [--get-user-tokens ''] alone. *)
Definition run_all : Args := with_run_all_tests no_flags true.

Definition only_empty_user_id : Args := with_get_user_tokens no_flags (Some []).

(** A backend that answers every request with 400, and one that answers
    with a page that is not JSON. *)
Definition rejecting : Runtime :=
  scripted (fun _ => inr (mkResponse 400 (lit "missing required fields") None))
           1700000000.


(** A backend whose one registered token has three characters. *)
Definition short_record : pyval :=
  PDict [ (lit "user_id", PStr (lit "user-1"));
          (lit "token", PStr (lit "abc"));
          (lit "device_id", PStr (lit "device-1"));
          (lit "platform", PStr (lit "ios"));
          (lit "app_version", PStr (lit "1.4.2"));
          (lit "updated_at", PStr (lit "2024-05-01T10:00:00Z")) ].

Definition short_token : Runtime :=
  scripted (fun _ => ok_response (PList [ short_record ])) 1700000000.

(** A backend whose replies hold a lone surrogate (the JSON text
    ["\ud800"]): as the user of the one registered token, and as the
    message of the dispatch result. *)
Definition lone_surrogate : pyval := PSurr [ Lone 0xD800 ].

Definition surrogate_answer (rq : Request) : pystr + Response :=
  match rq_json rq with
  | None =>
      ok_response
        (PList [ PDict [ (lit "user_id", lone_surrogate);
                         (lit "token", PStr (lit "abc"));
                         (lit "device_id", PStr (lit "device-1"));
                         (lit "platform", PStr (lit "ios"));
                         (lit "updated_at", PStr (lit "2024-05-01T10:00:00Z")) ] ])
  | Some _ => ok_response (PDict [ (lit "message", lone_surrogate) ])
  end.

Definition surrogates : Runtime := scripted surrogate_answer 1700000000.

(** [RT] with a command line that [argparse] turns into [parsed]. *)
Definition on_command_line (RT : Runtime) (parsed : (list pystr * Z) + Args)
  : Runtime :=
  {| Env := @Env RT;
     requests_post := @requests_post RT;
     time_time := @time_time RT;
     py_repr := @py_repr RT;
     str_exc := @str_exc RT;
     argparse_parse_args := fun _ => parsed |}.

(** * Part III: the proofs *)

(** ** Stripping trailing characters *)

Lemma rstrip_cons c x s :
  rstrip c (x :: s) =
    match rstrip c s with
    | [] => if N.eqb x c then [] else [x]
    | y :: r => x :: y :: r
    end.
Proof.
  unfold rstrip; cbn [fold_right].
  now destruct (fold_right _ _ s).
Qed.

Lemma rstrip_repeat c n : rstrip c (repeat c n) = [].
Proof.
  induction n as [|n IH]; [reflexivity|].
  cbn [repeat]; rewrite rstrip_cons, IH; now rewrite N.eqb_refl.
Qed.

Lemma rstrip_app_repeat c s n : rstrip c (s ++ repeat c n) = rstrip c s.
Proof.
  induction s as [|x s IH]; cbn [app].
  - apply rstrip_repeat.
  - now rewrite !rstrip_cons, IH.
Qed.

(** What is stripped is a run of [c] ... *)
Lemma rstrip_stripped c s : exists k, s = rstrip c s ++ repeat c k.
Proof.
  induction s as [|x s [k IH]]; [now exists 0%nat|].
  rewrite rstrip_cons.
  destruct (rstrip c s) as [|y r].
  - destruct (N.eqb_spec x c) as [->|].
    + exists (S k); cbn in *; now rewrite <- IH.
    + exists k; cbn in *; now rewrite <- IH.
  - exists k; cbn in *; now rewrite <- IH.
Qed.

(** ... and what is left does not end in [c]. *)
Lemma rstrip_no_trailing c s p : rstrip c s <> p ++ [c].
Proof.
  revert p; induction s as [|x s IH]; intros p.
  - now destruct p.
  - rewrite rstrip_cons.
    destruct (rstrip c s) as [|y r] eqn:E.
    + destruct (N.eqb_spec x c) as [->|Hx].
      * now destruct p.
      * destruct p as [|a [|b p]]; cbn; congruence.
    + destruct p as [|a p]; cbn; [discriminate|].
      intros [= -> H]; exact (IH p H).
Qed.

(** ** The CSV utility *)

Lemma fix_rows_data ts n rows :
  0 < n ->
  fix_rows ts n rows = map (fun row => row ++ [ts; ts]) (filter wide rows).
Proof.
  revert n; induction rows as [|row rest IH]; intros n Hn; cbn [fix_rows filter map];
    [reflexivity|].
  rewrite (IH (n + 1)) by lia.
  replace (n =? 0) with false by (symmetry; apply Z.eqb_neq; lia).
  unfold wide.
  destruct (Nat.leb_spec 6 (List.length row)).
  - replace (Z.of_nat (List.length row) >=? 6) with true
      by (symmetry; apply Z.geb_le; lia).
    reflexivity.
  - replace (Z.of_nat (List.length row) >=? 6) with false; [reflexivity|].
    symmetry; rewrite Z.geb_leb; apply Z.leb_gt; lia.
Qed.

(** X14: [fix_timestamps] writes the first row as it is, whatever its
    width, and after it, in their order, the data rows that have at least
    six fields, each with the timestamp appended twice; the other data rows
    are dropped, and nothing is written for an empty input. *)
Theorem fix_timestamps_keeps_header_and_wide_rows
    (ts : pystr) (header : list pystr) (rows : list (list pystr)) :
  fix_timestamps ts [] = []
  /\ fix_timestamps ts (header :: rows)
       = header :: map (fun row => row ++ [ts; ts]) (filter wide rows).
Proof.
  split; [reflexivity|].
  unfold fix_timestamps; cbn [fix_rows Z.eqb app].
  now rewrite fix_rows_data by lia.
Qed.

(** X15: every data row written has two fields more than the row it comes
    from, hence at least eight, and ends with the timestamp twice, while
    the header is written without new fields; no more rows are written
    than were read. *)
Theorem fix_timestamps_widens_data_rows_only
    (ts : pystr) (header : list pystr) (rows : list (list pystr)) :
  let written := fix_timestamps ts (header :: rows) in
  hd_error written = Some header
  /\ Forall (fun row =>
               exists source,
                 In source rows
                 /\ row = source ++ [ts; ts]
                 /\ List.length row = (List.length source + 2)%nat
                 /\ (8 <= List.length row)%nat)
            (tl written)
  /\ (List.length written <= List.length (header :: rows))%nat.
Proof.
  cbv zeta; unfold fix_timestamps; cbn [fix_rows Z.eqb app hd_error tl].
  rewrite fix_rows_data by lia.
  split; [reflexivity|]; split.
  - apply Forall_forall; intros row Hrow.
    apply in_map_iff in Hrow; destruct Hrow as (source & <- & Hsource).
    apply filter_In in Hsource; destruct Hsource as [Hin Hwide].
    unfold wide in Hwide; apply Nat.leb_le in Hwide.
    exists source; rewrite length_app; cbn; repeat split; trivial; lia.
  - cbn [List.length]; rewrite length_map.
    pose proof (filter_length_le wide rows); lia.
Qed.

(** ** Writing a str *)

Lemma encode_plain s : encode (plain s) = Some s.
Proof.
  induction s as [|c s IH]; [reflexivity|].
  change (encode (plain (c :: s)))
    with (match encode (plain s) with Some t => Some (c :: t) | None => None end).
  now rewrite IH.
Qed.

Lemma encode_nil : encode [] = Some [].
Proof. reflexivity. Qed.

Lemma encode_app u v :
  encode (u ++ v) =
    match encode u, encode v with
    | Some a, Some b => Some (a ++ b)
    | _, _ => None
    end.
Proof.
  induction u as [|[c|c] u IH]; cbn [app].
  - change (encode []) with (Some (@nil N)); now destruct (encode v).
  - change (encode (Char c :: u ++ v))
      with (match encode (u ++ v) with Some t => Some (c :: t) | None => None end).
    change (encode (Char c :: u))
      with (match encode u with Some t => Some (c :: t) | None => None end).
    rewrite IH; destruct (encode u), (encode v); reflexivity.
  - reflexivity.
Qed.

Lemma encode_clean u : clean u = match encode u with Some _ => true | None => false end.
Proof.
  induction u as [|[c|c] u IH]; [reflexivity| |reflexivity].
  change (encode (Char c :: u))
    with (match encode u with Some t => Some (c :: t) | None => None end).
  cbn [clean forallb andb] in *; unfold clean in IH; rewrite IH.
  now destruct (encode u).
Qed.

(** ** Running the monad, the methods and the dispatcher *)

Section Proofs.

Context {RT : Runtime}.

Lemma out_nil w : out w [] = w.
Proof. destruct w; unfold out; cbn; now rewrite app_nil_r. Qed.

Lemma out_out w a b : out (out w a) b = out w (a ++ b).
Proof. unfold out; cbn; now rewrite app_assoc. Qed.

Lemma emits_ret {A} (a : A) : emits (ret a) [] (Return a).
Proof. intros w; unfold ret; now rewrite out_nil. Qed.

Lemma emits_lift {A} (r : outcome A) : emits (lift r) [] r.
Proof. intros w; unfold lift; now rewrite out_nil. Qed.

Lemma emits_print s : emits (print (plain s)) [s] (Return tt).
Proof. intros w; unfold print; now rewrite encode_plain. Qed.

Lemma emits_bind {A B} (m : M A) (k : A -> M B) l1 a l2 r :
  emits m l1 (Return a) -> emits (k a) l2 r -> emits (bind m k) (l1 ++ l2) r.
Proof.
  intros Hm Hk w; unfold bind; rewrite Hm, Hk; now rewrite out_out.
Qed.

Lemma emits_bind_raise {A B} (m : M A) (k : A -> M B) l1 e :
  emits m l1 (Raise e) -> emits (bind m k) l1 (Raise e).
Proof. intros Hm w; unfold bind; now rewrite Hm. Qed.

Lemma bind_returned {A B} (m : M A) (k : A -> M B) w w' a :
  m w = (w', Return a) -> bind m k w = k a w'.
Proof. intros H; unfold bind; now rewrite H. Qed.

Arguments bind_returned {A B m} k {w w' a} _.

Lemma bind_print {B} s (k : unit -> M B) w :
  bind (print (plain s)) k w = k tt (out w [s]).
Proof. unfold bind, print; now rewrite encode_plain. Qed.

Lemma for_enumerate_spec {A F} (body : Z -> A -> M unit)
    (view : A -> option F) (lines : Z -> F -> list pystr) :
  body_spec body view lines ->
  forall items i,
    match views view items with
    | Some fs => emits (for_enumerate i items body) (listing lines i fs) (Return tt)
    | None => exists ls e,
        emits (for_enumerate i items body) ls (Raise e) /\ is_Exception e = true
    end.
Proof.
  intros Hbody; induction items as [|x rest IH]; intros i; cbn.
  - apply emits_ret.
  - specialize (Hbody i x); specialize (IH (i + 1)).
    destruct (view x) as [f|].
    + destruct (views view rest) as [fs|].
      * cbn. now apply emits_bind with (a := tt).
      * destruct IH as (ls & e & He & Hexc).
        exists (lines i f ++ ls), e; split; [|exact Hexc].
        now apply emits_bind with (a := tt).
    + destruct Hbody as (ls & e & He & Hexc).
      exists ls, e; split; [|exact Hexc].
      now apply emits_bind_raise.
Qed.

(** Running a computation that only prints: unfold the monad, use the
    facts at hand about lookups and loops, and compare the two worlds. *)
Ltac run_emits :=
  let w := fresh "w" in
  intros w; unfold shown in *;
  cbv [bind lift print ret raise response_json]; cbn;
  repeat match goal with
    | H : json_body _ = _ |- _ => rewrite H; cbn
    | H : Py.dict_get _ _ = _ |- _ => rewrite H; cbn
    | H : Py.slice_to _ _ = _ |- _ => rewrite H; cbn
    | H : emits _ _ _ |- _ => rewrite H; cbn
    | H : context [for_enumerate] |- _ => rewrite H; cbn
    | |- context [encode []] => rewrite encode_nil; cbn
    | |- context [encode (plain _)] => rewrite encode_plain; cbn
    | |- context [encode (_ ++ _)] => rewrite encode_app; cbn
    | H : encode _ = _ |- _ => rewrite H; cbn
    end;
  rewrite ?out_out; cbn;
  first [ reflexivity | rewrite <- (out_nil w) at 1; reflexivity ].

(** Settle a goal [exists ls r, emits m ls r /\ ...] by running [m]. *)
Ltac settle :=
  cbn; eexists; eexists; split;
  [ run_emits
  | unfold writable, shown in *;
    repeat match goal with
      | H : encode _ = _ |- _ => rewrite H; cbn
      end;
    first [ reflexivity | assumption
          | split; [first [reflexivity | assumption] | try reflexivity] ] ].

(** ** The three loop bodies *)

Lemma show_active_token_spec :
  body_spec show_active_token active_token_view active_token_lines.
Proof.
  intros i token;
    unfold active_token_view, show_active_token, shown_field, shown_cut.
  destruct token as [| | | | | |?|d]; try settle.
  destruct (Py.dict_get d (lit "user_id")) as [user|] eqn:Hu; [|settle].
  destruct (shown user) eqn:Su; [|settle].
  destruct (Py.dict_get d (lit "token")) as [tok|] eqn:Ht; [|settle].
  destruct (Py.slice_to tok 20) as [tok20|] eqn:Hs;
    [|destruct tok; cbn in Hs; try discriminate; settle].
  destruct (shown tok20) eqn:St; [|settle].
  destruct (Py.dict_get d (lit "device_id")) as [device|] eqn:Hd; [|settle].
  destruct (shown device) eqn:Sd; [|settle].
  destruct (Py.dict_get d (lit "platform")) as [platform|] eqn:Hp; [|settle].
  destruct (shown platform) eqn:Sp; [|settle].
  destruct (Py.dict_get d (lit "updated_at")) as [updated|] eqn:Hup; [|settle].
  destruct (shown updated) eqn:Sup; [|settle].
  run_emits.
Qed.

Lemma show_user_token_spec :
  body_spec show_user_token user_token_view user_token_lines.
Proof.
  intros i token;
    unfold user_token_view, show_user_token, shown_field, shown_cut.
  destruct token as [| | | | | |?|d]; try settle.
  destruct (Py.dict_get d (lit "token")) as [tok|] eqn:Ht; [|settle].
  destruct (Py.slice_to tok 20) as [tok20|] eqn:Hs;
    [|destruct tok; cbn in Hs; try discriminate; settle].
  destruct (shown tok20) eqn:St; [|settle].
  destruct (Py.dict_get d (lit "device_id")) as [device|] eqn:Hd; [|settle].
  destruct (shown device) eqn:Sd; [|settle].
  destruct (Py.dict_get d (lit "platform")) as [platform|] eqn:Hp; [|settle].
  destruct (shown platform) eqn:Sp; [|settle].
  destruct (Py.dict_get d (lit "app_version")) as [version|] eqn:Hv; [|settle].
  destruct (shown version) eqn:Sv; [|settle].
  destruct (Py.dict_get d (lit "updated_at")) as [updated|] eqn:Hup; [|settle].
  destruct (shown updated) eqn:Sup; [|settle].
  run_emits.
Qed.

Lemma show_device_result_spec :
  body_spec show_device_result device_result_view device_result_lines.
Proof.
  intros i res; unfold device_result_view, show_device_result, shown_field.
  destruct res as [| | | | | |?|d]; try settle.
  destruct (Py.dict_get d (lit "device_id")) as [device|] eqn:Hd; [|settle].
  destruct (Py.dict_get d (lit "platform")) as [platform|] eqn:Hp;
    [|destruct (shown device); settle].
  destruct (shown device) eqn:Sd; [|settle].
  destruct (shown platform) eqn:Sp; [|settle].
  destruct (Py.dict_get d (lit "token")) as [tok|] eqn:Ht; [|settle].
  destruct (shown tok) eqn:St; [|settle].
  run_emits.
Qed.

(** ** What each method does, from the reply it gets *)

Lemma world_eq e e' o o' s s' t t' :
  e = e' -> o = o' -> s = s' -> t = t' -> mkWorld e o s t = mkWorld e' o' s' t'.
Proof. now intros -> -> -> ->. Qed.

(** [try: response = requests.post(...); k(response)
     except Exception as e: handler(e)] *)
Lemma try_post_run u h j k handler ok :
  judges k ok -> reports_failure handler ->
  forall w, exists lines,
    try_except (bind (post u h j) k) handler w =
      (mkWorld (fst (requests_post (env w) (mkRequest u h j)))
               (stdout w ++ lines) (sent w ++ [mkRequest u h j]) (trace w),
       Return (verdict ok (snd (requests_post (env w) (mkRequest u h j))))).
Proof.
  intros Hk Hh w; unfold try_except, bind, post.
  destruct (requests_post (env w) (mkRequest u h j)) as [e' [msg|resp]]; cbn.
  - destruct (Hh (RequestException msg)) as [ls Hls].
    exists ls; now rewrite Hls.
  - destruct (Hk resp) as (ls & r & Hr & Hok); rewrite Hr.
    destruct r as [b|e].
    + subst b; now exists ls.
    + destruct Hok as [-> ->].
      destruct (Hh e) as [ls' Hls']; rewrite Hls', out_out.
      now exists (ls ++ ls').
Qed.

(** [print(banner)] and then the [try] statement, in a method entered as
    [c]. *)
Lemma method_run c banner u h j k handler ok :
  judges k ok -> reports_failure handler ->
  forall w, exists lines,
    (enter c ;; print (plain banner) ;;
     try_except (bind (post u h j) k) handler) w =
      (after w (mkRequest u h j) c lines,
       Return (verdict ok (snd (requests_post (env w) (mkRequest u h j))))).
Proof.
  intros Hk Hh w.
  destruct (try_post_run u h j Hk Hh
              (mkWorld (env w) (stdout w ++ [banner]) (sent w) (trace w ++ [c])))
    as [lines Hrun].
  exists (banner :: lines).
  unfold bind at 1, enter; rewrite bind_print;
    unfold out; cbn [fst snd env stdout sent trace].
  rewrite Hrun; cbn [fst snd env stdout sent trace].
  unfold after; f_equal; apply world_eq; try reflexivity.
  rewrite <- app_assoc; reflexivity.
Qed.

(** The same, when the reply is a response the block takes to its end. *)
Lemma try_post_exact u h j (k : Response -> M bool) handler resp ls b w :
  snd (requests_post (env w) (mkRequest u h j)) = inr resp ->
  emits (k resp) ls (Return b) ->
  try_except (bind (post u h j) k) handler w =
    (mkWorld (fst (requests_post (env w) (mkRequest u h j)))
             (stdout w ++ ls) (sent w ++ [mkRequest u h j]) (trace w),
     Return b).
Proof.
  intros Hreply Hk; unfold try_except, bind, post.
  destruct (requests_post (env w) (mkRequest u h j)) as [e' reply].
  cbn in Hreply; subst reply; cbn [fst snd]; now rewrite Hk.
Qed.

Lemma method_run_exact c banner u h j (k : Response -> M bool) handler resp ls b w :
  snd (requests_post (env w) (mkRequest u h j)) = inr resp ->
  emits (k resp) ls (Return b) ->
  (enter c ;; print (plain banner) ;;
   try_except (bind (post u h j) k) handler) w =
    (after w (mkRequest u h j) c (banner :: ls), Return b).
Proof.
  intros Hreply Hk.
  unfold bind at 1, enter; rewrite bind_print;
    unfold out; cbn [fst snd env stdout sent trace].
  rewrite try_post_exact with (resp := resp) (ls := ls) (b := b);
    [|exact Hreply|exact Hk].
  unfold after; cbn [fst snd env stdout sent trace].
  f_equal; apply world_eq; try reflexivity.
  now rewrite <- app_assoc.
Qed.

Local Arguments firstn : simpl never.
Local Arguments Py.dict_get_or : simpl never.

(** Go through the summary block of a dispatch result. *)
Ltac summary_block d :=
  let summary := fresh "summary" in
  let Hs := fresh "Hs" in
  destruct (Py.dict_get d (lit "summary")) as [summary|] eqn:Hs; cbn;
  [|settle];
  destruct summary as [| | | | | | |?sd]; try settle;
  unfold writable;
  match goal with
  | |- context [shown (Py.dict_get_or ?sd (lit "total_tokens") ?x)] =>
      destruct (shown (Py.dict_get_or sd (lit "total_tokens") x)) eqn:?S;
      [|settle];
      destruct (shown (Py.dict_get_or sd (lit "notification_type") x)) eqn:?S;
      [|settle];
      destruct (shown (Py.dict_get_or sd (lit "title") x)) eqn:?S; [|settle];
      destruct (shown (Py.dict_get_or sd (lit "body") x)) eqn:?S; settle
  end.

(** A loop over the characters of a string, or the keys of a dict, stops
    at the first one when there is one. *)
Lemma loop_over_strings {F} body (view : pyval -> option F) lines
    (A : Type) (g : A -> pyval) (l : list A) :
  body_spec body view lines ->
  (forall a, view (g a) = None) ->
  match l with
  | [] => emits (for_enumerate 0 (map g l) body) [] (Return tt)
  | _ => exists ls e,
      emits (for_enumerate 0 (map g l) body) ls (Raise e)
      /\ is_Exception e = true
  end.
Proof.
  intros Hb Hv.
  pose proof (for_enumerate_spec Hb (map g l) 0) as H.
  destruct l as [|a l]; [exact H|].
  cbn [map views] in H; now rewrite Hv in H.
Qed.

Lemma test_token_registration_run self w :
  exists lines,
    test_token_registration self w =
      (after w (registration_request self) CallTokenRegistration lines,
       Return (verdict registration_ok
                 (snd (requests_post (env w) (registration_request self))))).
Proof.
  unfold test_token_registration.
  apply method_run; [|intros e; eexists; run_emits].
  intros resp; unfold registration_ok.
  destruct (status_code resp =? 200) eqn:Hst; cbn; [|settle].
  destruct (json_body resp) as [tokens|] eqn:Hj; [|settle].
  destruct tokens as [| | | |s|s|items|d]; try settle.
  - pose proof (loop_over_strings (fun c : N => PStr [c]) (firstn 5 s)
                  show_active_token_spec (fun _ => eq_refl)) as H.
    destruct s as [|c s]; cbn; [settle|].
    change (firstn 5 (c :: s)) with (c :: firstn 4 s) in H.
    destruct H as (ls & e & H & He). settle.
  - pose proof (loop_over_strings (fun c : uchar => PSurr [c]) (firstn 5 s)
                  show_active_token_spec (fun _ => eq_refl)) as H.
    destruct s as [|c s]; cbn; [settle|].
    change (firstn 5 (c :: s)) with (c :: firstn 4 s) in H.
    destruct H as (ls & e & H & He). settle.
  - pose proof (for_enumerate_spec show_active_token_spec (firstn 5 items) 0) as H.
    unfold viewed.
    destruct items as [|x items]; [settle|].
    destruct (views _ _); [settle|].
    destruct H as (ls & e & H & He). settle.
  - destruct d; cbn; [settle|settle].
Qed.

Lemma test_edge_function_health_run self w :
  exists lines,
    test_edge_function_health self w =
      (after w (health_request self) CallHealth lines,
       Return (verdict health_ok
                 (snd (requests_post (env w) (health_request self))))).
Proof.
  unfold test_edge_function_health.
  apply method_run; [|intros e; eexists; run_emits].
  intros resp; unfold health_ok.
  destruct ((status_code resp =? 200) || (status_code resp =? 400));
    [settle|settle].
Qed.

Lemma get_user_fcm_tokens_run self user_id w :
  exists lines,
    get_user_fcm_tokens self user_id w =
      (after w (user_tokens_request self user_id) (CallUserTokens user_id) lines,
       Return (verdict user_tokens_ok
                 (snd (requests_post (env w) (user_tokens_request self user_id))))).
Proof.
  unfold get_user_fcm_tokens.
  apply method_run; [|intros e; eexists; run_emits].
  intros resp; unfold user_tokens_ok.
  destruct (status_code resp =? 200) eqn:Hst; cbn; [|settle].
  destruct (json_body resp) as [tokens|] eqn:Hj; [|settle].
  destruct tokens as [| | | |s|s|items|d]; try settle.
  - pose proof (loop_over_strings (fun c : N => PStr [c]) s
                  show_user_token_spec (fun _ => eq_refl)) as H.
    destruct s as [|c s]; cbn; [settle|].
    destruct H as (ls & e & H & He). settle.
  - pose proof (loop_over_strings (fun c : uchar => PSurr [c]) s
                  show_user_token_spec (fun _ => eq_refl)) as H.
    destruct s as [|c s]; cbn; [settle|].
    destruct H as (ls & e & H & He). settle.
  - pose proof (for_enumerate_spec show_user_token_spec items 0) as H.
    unfold viewed.
    destruct (views _ _); [settle|].
    destruct H as (ls & e & H & He). settle.
  - pose proof (loop_over_strings (fun kv : pystr * pyval => PStr (fst kv)) d
                  show_user_token_spec (fun _ => eq_refl)) as H.
    destruct d as [|kv d]; cbn; [settle|].
    destruct H as (ls & e & H & He). settle.
Qed.

Lemma bind_now {A} (k : Z -> M A) w : bind now k w = k (time_time (env w)) w.
Proof. reflexivity. Qed.

Lemma prelude_run {A} c banner target (m : M A) w :
  (enter c ;; print (plain banner) ;; print (plain target) ;; m) w =
    m (mkWorld (env w) (stdout w ++ [banner; target]) (sent w) (trace w ++ [c])).
Proof.
  unfold bind at 1, enter; rewrite !bind_print; unfold out; cbn.
  now rewrite <- app_assoc.
Qed.

(** The part after the target check posts one request and judges the
    reply. *)
Lemma dispatch_notification_run self user_id test_all_users w :
  let rq := send_request self user_id test_all_users (time_time (env w)) in
  exists lines,
    dispatch_notification self user_id test_all_users w =
      (mkWorld (fst (requests_post (env w) rq)) (stdout w ++ lines)
               (sent w ++ [rq]) (trace w),
       Return (verdict send_ok (snd (requests_post (env w) rq)))).
Proof.
  unfold dispatch_notification; rewrite bind_now; cbv beta zeta.
  match goal with
  | |- context [try_except (bind (post ?u ?h ?j) ?k) ?hd] =>
      assert (Hk : judges k send_ok);
      [| assert (Hh : reports_failure hd) by (intros e; eexists; run_emits);
         exact (try_post_run u h j Hk Hh w) ]
  end.
  intros resp; unfold send_ok.
  destruct (status_code resp =? 200) eqn:Hst; cbn; [|settle].
  destruct (json_body resp) as [result|] eqn:Hj; [|settle].
  destruct result as [| | | | | | |d]; try settle.
  unfold writable at 1.
  destruct (shown (Py.dict_get_or d (lit "message") (PStr (lit "No message"))))
    eqn:Sm; [|settle].
  destruct (Py.dict_get d (lit "results")) as [results|] eqn:Hr; cbn.
  - destruct results as [| | | |s|s|items|rd]; try settle.
    + pose proof (loop_over_strings (fun c : N => PStr [c]) (firstn 3 s)
                    show_device_result_spec (fun _ => eq_refl)) as H.
      destruct s as [|c s]; cbn.
      * summary_block d.
      * change (firstn 3 (c :: s)) with (c :: firstn 2 s) in H.
        destruct H as (ls & e & H & He). settle.
    + pose proof (loop_over_strings (fun c : uchar => PSurr [c]) (firstn 3 s)
                    show_device_result_spec (fun _ => eq_refl)) as H.
      destruct s as [|c s]; cbn.
      * summary_block d.
      * change (firstn 3 (c :: s)) with (c :: firstn 2 s) in H.
        destruct H as (ls & e & H & He). settle.
    + pose proof (for_enumerate_spec show_device_result_spec (firstn 3 items) 0) as H.
      unfold viewed.
      destruct (views _ _); cbn.
      * summary_block d.
      * destruct H as (ls & e & H & He). settle.
  - summary_block d.
Qed.

(** With a target, the method sends one request and judges the reply;
    without one it reports the missing target and leaves the remote side
    alone. *)
Lemma send_test_notification_run self user_id test_all_users w :
  if has_target user_id test_all_users then
    exists lines,
      send_test_notification self user_id test_all_users w =
        (after w (send_request self user_id test_all_users (time_time (env w)))
               (CallSend user_id test_all_users) lines,
         Return (verdict send_ok
                   (snd (requests_post (env w)
                           (send_request self user_id test_all_users
                              (time_time (env w)))))))
  else
    send_test_notification self user_id test_all_users w =
      (mkWorld (env w)
         (stdout w ++
            [ OUTBOX :: lit " Sending test notification...";
              CROSS_MARK :: lit " Either user_id or test_all_users must be specified" ])
         (sent w) (trace w ++ [CallSend user_id test_all_users]),
       Return false).
Proof.
  assert (Hsent : forall banner target,
    exists lines,
      (enter (CallSend user_id test_all_users) ;;
       print (plain banner) ;; print (plain target) ;;
       dispatch_notification self user_id test_all_users) w =
        (after w (send_request self user_id test_all_users (time_time (env w)))
               (CallSend user_id test_all_users) lines,
         Return (verdict send_ok
                   (snd (requests_post (env w)
                           (send_request self user_id test_all_users
                              (time_time (env w)))))))).
  { intros banner target; rewrite prelude_run.
    destruct (dispatch_notification_run self user_id test_all_users
                (mkWorld (env w) (stdout w ++ [banner; target]) (sent w)
                         (trace w ++ [CallSend user_id test_all_users])))
      as [lines Hrun].
    exists (banner :: target :: lines).
    cbn [env stdout sent trace] in Hrun; rewrite Hrun.
    unfold after; f_equal; apply world_eq; try reflexivity.
    now rewrite <- app_assoc. }
  unfold send_test_notification, has_target.
  destruct (Py.truthy_opt user_id); cbn [orb]; [apply Hsent|].
  destruct test_all_users; [apply Hsent|].
  unfold bind at 1, enter; rewrite !bind_print; unfold ret, out; cbn.
  f_equal; apply world_eq; try reflexivity.
  now rewrite <- app_assoc.
Qed.

(** ** The dispatcher *)

Lemma runs_after (m : M bool) c :
  (forall w, exists rq lines b, m w = (after w rq c lines, Return b)) -> runs m c.
Proof.
  intros H w; destruct (H w) as (rq & lines & b & ->).
  exists (after w rq c lines), b; cbn; repeat split; eauto.
Qed.

Lemma runs_health self : runs (test_edge_function_health self) CallHealth.
Proof.
  apply runs_after; intros w.
  destruct (test_edge_function_health_run self w) as [lines ->]; eauto.
Qed.

Lemma runs_registration self :
  runs (test_token_registration self) CallTokenRegistration.
Proof.
  apply runs_after; intros w.
  destruct (test_token_registration_run self w) as [lines ->]; eauto.
Qed.

Lemma runs_user_tokens self user_id :
  runs (get_user_fcm_tokens self user_id) (CallUserTokens user_id).
Proof.
  apply runs_after; intros w.
  destruct (get_user_fcm_tokens_run self user_id w) as [lines ->]; eauto.
Qed.

Lemma runs_send self user_id test_all_users :
  runs (send_test_notification self user_id test_all_users)
       (CallSend user_id test_all_users).
Proof.
  intros w.
  pose proof (send_test_notification_run self user_id test_all_users w) as H.
  destruct (has_target user_id test_all_users).
  - destruct H as [lines ->].
    eexists; eexists; split; [reflexivity|]; cbn; repeat split; eauto.
  - rewrite H.
    eexists; eexists; split; [reflexivity|]; cbn; repeat split; eauto.
Qed.

Lemma counts_ret c0 : counts_calls (ret c0) [] c0.
Proof.
  intros w; exists w, c0; cbn; rewrite !app_nil_r.
  repeat split; try lia. exists []; now rewrite app_nil_r.
Qed.

Lemma counts_tally m c c0 : runs m c -> counts_calls (tally m c0) [c] c0.
Proof.
  intros Hm w; destruct c0 as [passed total].
  destruct (Hm w) as (w' & b & Hrun & Ht & Hout & _).
  unfold tally, bind, ret; rewrite Hrun.
  eexists; eexists; split; [reflexivity|]; cbn.
  repeat split; try assumption; destruct b; lia.
Qed.

Lemma counts_bind m k calls1 calls2 c0 :
  counts_calls m calls1 c0 ->
  (forall c, counts_calls (k c) calls2 c) ->
  counts_calls (bind m k) (calls1 ++ calls2) c0.
Proof.
  intros Hm Hk w.
  destruct (Hm w) as (w1 & c1 & Hrun & Ht & Htot & Hp & lines & Hout).
  destruct (Hk c1 w1) as (w2 & c2 & Hrun2 & Ht2 & Htot2 & Hp2 & lines2 & Hout2).
  unfold bind; rewrite Hrun, Hrun2.
  exists w2, c2; split; [reflexivity|].
  rewrite Ht2, Ht, Hout2, Hout, length_app, Nat2Z.inj_add, <- !app_assoc.
  repeat split; try lia. now exists (lines ++ lines2).
Qed.

Lemma counts_print s m calls c0 :
  counts_calls m calls c0 -> counts_calls (print (plain s) ;; m) calls c0.
Proof.
  intros Hm w; rewrite bind_print.
  destruct (Hm (out w [s])) as (w' & c & Hrun & Ht & Htot & Hp & lines & Hout).
  exists w', c; split; [exact Hrun|].
  repeat split; try assumption; try lia.
  exists (s :: lines); rewrite Hout; cbn; now rewrite <- app_assoc.
Qed.

Lemma counts_if (b : bool) m calls c0 :
  counts_calls m calls c0 ->
  counts_calls (if b then m else ret c0) (if b then calls else []) c0.
Proof. destruct b; [trivial|intros _; apply counts_ret]. Qed.

Lemma counts_bind_cons m k c calls c0 :
  counts_calls m [c] c0 ->
  (forall c1, counts_calls (k c1) calls c1) ->
  counts_calls (bind m k) (c :: calls) c0.
Proof. intros Hm Hk; exact (@counts_bind m k [c] calls c0 Hm Hk). Qed.

Lemma run_tests_counts args self :
  counts_calls (run_tests args self) (executed args) (0, 0).
Proof.
  unfold run_tests, executed.
  destruct (arg_run_all_tests args).
  - apply counts_print.
    apply counts_bind_cons; [apply counts_tally, runs_health|intros c1].
    apply counts_print.
    apply counts_bind_cons; [apply counts_tally, runs_registration|intros c2].
    apply counts_print.
    apply counts_bind_cons; [apply counts_tally, runs_send|intros c3].
    apply counts_print, counts_ret.
  - apply counts_bind; [apply counts_if, counts_tally, runs_health|intros c1].
    apply counts_bind; [apply counts_if, counts_tally, runs_registration|intros c2].
    apply counts_bind; [apply counts_if, counts_tally, runs_send|intros c3].
    rewrite <- (app_nil_r (if Py.truthy_opt _ then _ else _)).
    apply counts_bind; [apply counts_if, counts_tally, runs_user_tokens|intros c4].
    apply counts_ret.
Qed.

(** The report and the exit: [main] ends in [sys.exit]. *)
Lemma report_run counts w :
  report counts w =
    (out w [ NL :: BAR_CHART :: lit " Test Results: " +++ str_int (fst counts)
               +++ lit "/" +++ str_int (snd counts) +++ lit " tests passed";
             if fst counts =? snd counts
             then PARTY :: lit " All tests passed!"
             else CROSS_MARK
                    :: lit " Some tests failed. Check the output above for details." ],
     Raise (SystemExit (if fst counts =? snd counts then 0 else 1))).
Proof.
  destruct counts as [passed total]; unfold report; rewrite bind_print; cbn.
  destruct (passed =? total); rewrite bind_print;
    unfold sys_exit, raise; now rewrite out_out.
Qed.

(** ** The claims *)

(** C2: [test_edge_function_health] posts one request and returns true
    exactly when the reply is a response with status 200 (full success) or
    400 (missing required field); every other status and every transport
    fault gives false. *)
Theorem health_true_iff_200_or_400 (self : FCMTester) (w : World) :
  let reply := snd (requests_post (env w) (health_request self)) in
  exists b,
    snd (test_edge_function_health self w) = Return b
    /\ sent (fst (test_edge_function_health self w)) = sent w ++ [health_request self]
    /\ (b = true <->
        exists resp, reply = inr resp
                     /\ (status_code resp = 200 \/ status_code resp = 400))
    /\ (b = false <->
        (exists msg, reply = inl msg)
        \/ exists resp, reply = inr resp
                        /\ status_code resp <> 200 /\ status_code resp <> 400).
Proof.
  cbv zeta.
  destruct (test_edge_function_health_run self w) as [lines ->]; cbn [fst snd after sent].
  eexists; split; [reflexivity|]; split; [reflexivity|].
  destruct (snd (requests_post (env w) (health_request self))) as [msg|resp];
    unfold verdict, health_ok.
  - split; split.
    + discriminate.
    + now intros (resp & [=] & _).
    + intros _; left; now exists msg.
    + reflexivity.
  - rewrite orb_true_iff, orb_false_iff, !Z.eqb_eq, !Z.eqb_neq; split; split.
    + intros H; now exists resp.
    + now intros (resp' & [= <-] & H).
    + intros H; right; now exists resp.
    + intros [(msg & [=])|(resp' & [= <-] & H)]; exact H.
Qed.

(** C8: when the token-registration check gets a 200 response whose body
    is the empty list, it prints the count, then the notice that no active
    tokens were found, and returns true. *)
Theorem registration_empty_list_is_success (self : FCMTester) (w : World) resp :
  snd (requests_post (env w) (registration_request self)) = inr resp ->
  status_code resp = 200 ->
  json_body resp = Some (PList []) ->
  test_token_registration self w =
    (after w (registration_request self) CallTokenRegistration
       [ MAGNIFIER :: lit " Testing FCM token registration...";
         CHECK_MARK :: lit " Found 0 active FCM tokens in database";
         WARNING +++ lit "  No active FCM tokens found. Make sure to register tokens from your iOS app first." ],
     Return true).
Proof.
  intros Hreply Hst Hj.
  unfold test_token_registration.
  apply method_run_exact with (resp := resp); [exact Hreply|].
  cbv beta; rewrite Hst; change (200 =? 200) with true; cbv iota.
  run_emits.
Qed.

(** C4 (amended): whatever the methods return, [main] makes exactly the
    calls [executed args], in that order: in aggregate mode the health
    check, the token-registration check and the broadcast send; in
    selective mode the operations whose flags were given, each at most once
    and in the fixed order, the per-user lookup only for a non-empty
    identifier. *)
Theorem main_makes_the_executed_calls (args : Args) (w : World) :
  trace (fst (main args w)) = trace w ++ executed args
  /\ (if arg_run_all_tests args
      then executed args = [ CallHealth; CallTokenRegistration; CallSend None true ]
      else in_order (map operation_of (executed args)) fixed_order = true
           /\ executed args =
                (if arg_test_edge_function args then [CallHealth] else [])
                ++ (if arg_test_token_registration args
                    then [CallTokenRegistration] else [])
                ++ (if arg_send_test_notification args
                    then [CallSend (arg_user_id args) (arg_test_all_users args)]
                    else [])
                ++ (match arg_get_user_tokens args with
                    | Some (c :: user_id) => [CallUserTokens (c :: user_id)]
                    | _ => []
                    end)).
Proof.
  split.
  - unfold main, bind.
    destruct (run_tests_counts args
                (FCMTester_init (arg_supabase_url args) (arg_supabase_key args)) w)
      as (w1 & counts & -> & Ht & _).
    now rewrite report_run.
  - unfold executed.
    destruct (arg_run_all_tests args); [reflexivity|].
    split.
    + destruct (arg_test_edge_function args), (arg_test_token_registration args),
        (arg_send_test_notification args), (Py.truthy_opt (arg_get_user_tokens args));
        reflexivity.
    + destruct (arg_get_user_tokens args) as [[|c user_id]|]; reflexivity.
Qed.

(** C9: [--get-user-tokens] with the empty string runs exactly as if the
    flag were absent: no per-user lookup is called or counted, and alone it
    ends the run with 0/0 and exit status 0. *)
Theorem empty_user_id_skips_lookup (args : Args) (w : World) :
  main (with_get_user_tokens args (Some [])) w
    = main (with_get_user_tokens args None) w
  /\ executed (with_get_user_tokens args (Some []))
       = executed (with_get_user_tokens args None)
  /\ existsb (fun c => operation_eqb (operation_of c) OpUserTokens)
             (executed (with_get_user_tokens args (Some []))) = false
  /\ main (with_get_user_tokens no_flags (Some [])) w
       = (out w [ NL :: BAR_CHART :: lit " Test Results: 0/0 tests passed";
                  PARTY :: lit " All tests passed!" ],
          Raise (SystemExit 0)).
Proof.
  repeat split.
  - unfold executed; cbn.
    destruct (arg_run_all_tests args); [reflexivity|].
    destruct (arg_test_edge_function args), (arg_test_token_registration args),
      (arg_send_test_notification args); reflexivity.
  - change (main (with_get_user_tokens no_flags (Some [])) w)
      with (report (0, 0) w).
    now rewrite report_run.
Qed.

(** C10: the constructor strips every trailing slash of the base address,
    so two addresses that differ only in trailing slashes give the same
    tester, and each operation posts to the same URL with the same request
    in both. *)
Theorem trailing_slashes_are_stripped (core key : pystr) (n m : nat) :
  let a := core ++ repeat SLASH n in
  let b := core ++ repeat SLASH m in
  FCMTester_init a key = FCMTester_init b key
  /\ (exists k, a = supabase_url (FCMTester_init a key) ++ repeat SLASH k)
  /\ (forall p, supabase_url (FCMTester_init a key) <> p ++ [SLASH])
  /\ registration_request (FCMTester_init a key)
       = registration_request (FCMTester_init b key)
  /\ health_request (FCMTester_init a key) = health_request (FCMTester_init b key)
  /\ (forall user_id,
        user_tokens_request (FCMTester_init a key) user_id
          = user_tokens_request (FCMTester_init b key) user_id)
  /\ (forall user_id test_all_users t,
        send_request (FCMTester_init a key) user_id test_all_users t
          = send_request (FCMTester_init b key) user_id test_all_users t)
  /\ test_token_registration (FCMTester_init a key)
       = test_token_registration (FCMTester_init b key)
  /\ test_edge_function_health (FCMTester_init a key)
       = test_edge_function_health (FCMTester_init b key)
  /\ send_test_notification (FCMTester_init a key)
       = send_test_notification (FCMTester_init b key)
  /\ get_user_fcm_tokens (FCMTester_init a key)
       = get_user_fcm_tokens (FCMTester_init b key).
Proof.
  cbv zeta.
  assert (E : FCMTester_init (core ++ repeat SLASH n) key
              = FCMTester_init (core ++ repeat SLASH m) key)
    by (unfold FCMTester_init; now rewrite !rstrip_app_repeat).
  split; [exact E|].
  split; [apply rstrip_stripped|].
  split; [intros p; apply rstrip_no_trailing|].
  rewrite E; repeat split.
Qed.

(** C1 (amended): [send_test_notification] turns a call down, before any
    request and with false, exactly when it has no target: no non-empty
    [user_id] and no [test_all_users].  A call with a target posts one
    request and returns a boolean, true only for a reply with status 200;
    the payload carries [user_id] when it is a non-empty string and
    [test_all_users] when it is set, so a call that gives both sends
    both. *)
Theorem send_rejects_only_a_missing_target
    (self : FCMTester) (user_id : option pystr) (test_all_users : bool) (w : World) :
  let t := time_time (env w) in
  let rq := send_request self user_id test_all_users t in
  (if Py.truthy_opt user_id || test_all_users then
     exists lines b,
       send_test_notification self user_id test_all_users w =
         (mkWorld (fst (requests_post (env w) rq)) (stdout w ++ lines)
                  (sent w ++ [rq]) (trace w ++ [CallSend user_id test_all_users]),
          Return b)
       /\ (b = true ->
           exists resp, snd (requests_post (env w) rq) = inr resp
                        /\ status_code resp = 200)
   else
     send_test_notification self user_id test_all_users w =
       (mkWorld (env w)
          (stdout w ++
             [ OUTBOX :: lit " Sending test notification...";
               CROSS_MARK :: lit " Either user_id or test_all_users must be specified" ])
          (sent w) (trace w ++ [CallSend user_id test_all_users]),
        Return false))
  /\ Py.dict_get (notification_payload user_id test_all_users t) (lit "user_id")
       = (if Py.truthy_opt user_id then Some (val_opt user_id) else None)
  /\ Py.dict_get (notification_payload user_id test_all_users t) (lit "test_all_users")
       = (if test_all_users then Some (PBool true) else None).
Proof.
  cbv zeta; split.
  - pose proof (send_test_notification_run self user_id test_all_users w) as H.
    unfold has_target in H.
    destruct (Py.truthy_opt user_id || test_all_users); [|exact H].
    destruct H as [lines H]; eexists lines, _; split; [exact H|].
    destruct (snd (requests_post _ _)) as [msg|resp]; [discriminate|].
    unfold verdict, send_ok; intros Hb; exists resp; split; [reflexivity|].
    apply andb_true_iff in Hb; now apply Z.eqb_eq.
  - destruct user_id as [[|c u]|], test_all_users; split; reflexivity.
Qed.

(** C7: in aggregate mode, when the health check fails and the
    token-registration check and the broadcast send succeed, each in the
    world the run has reached when it is called, the report ends with
    "2/3 tests passed" and the failure notice, and the exit status is 1. *)
Theorem run_all_with_failed_health_is_2_of_3 (args : Args) (w : World) :
  let tester := FCMTester_init (arg_supabase_url args) (arg_supabase_key args) in
  let w1 := out w [ ROCKET :: lit " Running all FCM tests..." +++ [NL] ] in
  let w2 := out (fst (test_edge_function_health tester w1)) [ [] ] in
  let w3 := out (fst (test_token_registration tester w2)) [ [] ] in
  arg_run_all_tests args = true ->
  snd (test_edge_function_health tester w1) = Return false ->
  snd (test_token_registration tester w2) = Return true ->
  snd (send_test_notification tester None true w3) = Return true ->
  exists lines,
    stdout (fst (main args w)) =
      stdout w ++ lines ++
        [ NL :: BAR_CHART :: lit " Test Results: 2/3 tests passed";
          CROSS_MARK :: lit " Some tests failed. Check the output above for details." ]
    /\ snd (main args w) = Raise (SystemExit 1).
Proof.
  cbv zeta; intros Hall H1 H2 H3.
  set (tester := FCMTester_init (arg_supabase_url args) (arg_supabase_key args)) in *.
  assert (Htally : forall m c w0 (b : bool) counts,
            runs m c -> snd (m w0) = Return b ->
            exists l1,
              tally m counts w0 =
                (fst (m w0),
                 Return (if b then fst counts + 1 else fst counts, snd counts + 1))
              /\ stdout (fst (m w0)) = stdout w0 ++ l1).
  { intros m c w0 b [p t] Hm Hb.
    destruct (Hm w0) as (w1 & b' & R & _ & [l1 O] & _).
    rewrite R in Hb |- *; injection Hb as ->.
    exists l1; split; [|exact O].
    unfold tally; now rewrite (bind_returned _ R). }
  unfold main, run_tests; fold tester; rewrite Hall.
  set (w1 := out w [ROCKET :: lit " Running all FCM tests..." +++ [NL]]) in *.
  destruct (Htally _ _ w1 false (0, 0) (runs_health tester) H1) as (l1 & T1 & O1).
  set (w2 := out (fst (test_edge_function_health tester w1)) [[]]) in *.
  destruct (Htally _ _ w2 true (0, 0 + 1) (runs_registration tester) H2)
    as (l2 & T2 & O2).
  set (w3 := out (fst (test_token_registration tester w2)) [[]]) in *.
  destruct (Htally _ _ w3 true (0 + 1, 0 + 1 + 1) (runs_send tester None true) H3)
    as (l3 & T3 & O3).
  cbn [fst snd] in T1, T2, T3.
  rewrite (bind_returned _
             (w' := out (fst (send_test_notification tester None true w3)) [[]])
             (a := (0 + 1 + 1, 0 + 1 + 1 + 1))).
  2: { rewrite bind_print; fold w1; rewrite (bind_returned _ T1), bind_print.
       fold w2; rewrite (bind_returned _ T2), bind_print.
       fold w3; rewrite (bind_returned _ T3), bind_print.
       reflexivity. }
  rewrite report_run; cbn [fst snd].
  exists ((ROCKET :: lit " Running all FCM tests..." +++ [NL])
            :: l1 ++ [] :: l2 ++ [] :: l3 ++ [[]]).
  split; [|reflexivity].
  cbn [out stdout]; rewrite O3; unfold w3; cbn [out stdout]; rewrite O2.
  unfold w2; cbn [out stdout]; rewrite O1; unfold w1; cbn [out stdout].
  repeat (rewrite <- app_assoc; cbn [app]).
  reflexivity.
Qed.

Lemma views_Forall2 {A R F} (view : A -> option F) (rel : A -> R -> Prop)
    (sel : R -> F) items recs :
  (forall x r, rel x r -> view x = Some (sel r)) ->
  Forall2 rel items recs -> views view items = Some (map sel recs).
Proof.
  intros Hv HF; induction HF as [|x r items recs Hxr _ IH]; cbn; [reflexivity|].
  now rewrite (Hv x r Hxr), IH.
Qed.

Lemma listing_map {R F} (lines : Z -> F -> list pystr) (sel : R -> F) recs i :
  listing lines i (map sel recs) = listing (fun i r => lines i (sel r)) i recs.
Proof.
  revert i; induction recs as [|r recs IH]; intros i; cbn; [reflexivity|].
  now rewrite IH.
Qed.

Lemma writable_shown v : writable v = true -> shown v = Some (text_of v).
Proof. unfold writable, text_of; now destruct (shown v). Qed.

Lemma all_writable vs :
  forallb writable vs = true -> Forall (fun v => shown v = Some (text_of v)) vs.
Proof.
  induction vs as [|v vs IH]; cbn; [constructor|].
  rewrite andb_true_iff; intros [Hv Hvs]; constructor; auto using writable_shown.
Qed.

(** Take the facts [shown v = Some (text_of v)] out of a [forallb writable]. *)
Ltac writable_facts H :=
  apply all_writable in H;
  repeat match type of H with
    | Forall _ (_ :: _) =>
        let S := fresh "S" in
        let H' := fresh "H" in
        inversion H as [|? ? S H']; subst; clear H; rename H' into H
    end;
  clear H.

Lemma active_record_view v r :
  active_record v r ->
  active_token_view v =
    Some (text_of (rec_user_id r), firstn 20 (rec_token r),
          text_of (rec_device_id r), text_of (rec_platform r),
          text_of (rec_updated_at r)).
Proof.
  intros (Hu & Ht & Hd & Hp & Hup & Hw); destruct v; try discriminate.
  writable_facts Hw.
  unfold field in *; unfold active_token_view, shown_field, shown_cut.
  rewrite Hu, Ht, Hd, Hp, Hup; cbn [Py.slice_to].
  unfold shown at 2; cbn [fmt]; rewrite encode_plain.
  now repeat match goal with S : shown _ = _ |- _ => rewrite S; clear S end.
Qed.

Lemma user_record_view v r :
  user_record v r ->
  user_token_view v =
    Some (firstn 20 (rec_token r), text_of (rec_device_id r),
          text_of (rec_platform r), text_of (rec_app_version r),
          text_of (rec_updated_at r)).
Proof.
  intros (Ht & Hd & Hp & Hv & Hup & Hw); destruct v; try discriminate.
  writable_facts Hw.
  unfold field in *; unfold user_token_view, shown_field, shown_cut.
  rewrite Ht, Hd, Hp, Hv, Hup; cbn [Py.slice_to].
  unfold shown at 1; cbn [fmt]; rewrite encode_plain.
  now repeat match goal with S : shown _ = _ |- _ => rewrite S; clear S end.
Qed.

Lemma device_result_record_view v r :
  device_result v r ->
  device_result_view v =
    Some (text_of (res_device_id r), text_of (res_platform r), res_token r).
Proof.
  intros (Hd & Hp & Ht & Hw); destruct v; try discriminate.
  writable_facts Hw.
  unfold field in *; unfold device_result_view, shown_field.
  rewrite Hd, Hp, Ht.
  unfold shown at 3; cbn [fmt]; rewrite encode_plain.
  now repeat match goal with S : shown _ = _ |- _ => rewrite S; clear S end.
Qed.

(** The loop of a listing over records that are all well-formed. *)
Lemma loop_lists {R F} body (view : pyval -> option F) lines
    (rel : pyval -> R -> Prop) (sel : R -> F) items recs :
  body_spec body view lines ->
  (forall x r, rel x r -> view x = Some (sel r)) ->
  Forall2 rel items recs ->
  emits (for_enumerate 0 items body)
        (listing (fun i r => lines i (sel r)) 0 recs) (Return tt).
Proof.
  intros Hb Hv HF.
  pose proof (for_enumerate_spec Hb items 0) as H.
  rewrite (views_Forall2 view sel Hv HF) in H.
  now rewrite listing_map in H.
Qed.

Lemma registration_shows_20 (self : FCMTester) (w : World) resp items recs :
  snd (requests_post (env w) (registration_request self)) = inr resp ->
  status_code resp = 200 ->
  json_body resp = Some (PList items) ->
  Forall2 active_record (firstn 5 items) recs ->
  test_token_registration self w =
    (after w (registration_request self) CallTokenRegistration
       ((MAGNIFIER :: lit " Testing FCM token registration...")
        :: (CHECK_MARK :: lit " Found " +++ str_int (Z.of_nat (List.length items))
              +++ lit " active FCM tokens in database")
        :: match recs with
           | [] => [ WARNING +++ lit "  No active FCM tokens found. Make sure to register tokens from your iOS app first." ]
           | _ => (NL :: PHONE :: lit " Active FCM tokens:")
                  :: listing registration_listing 0 recs
           end),
     Return true).
Proof.
  intros Hreply Hst Hj HF.
  assert (Hloop : emits (for_enumerate 0 (firstn 5 items) show_active_token)
                        (listing registration_listing 0 recs) (Return tt))
    by exact (@loop_lists _ _ _ _ _ _ _ _ _ show_active_token_spec
                active_record_view HF).
  unfold test_token_registration.
  apply method_run_exact with (resp := resp); [exact Hreply|].
  cbv beta; rewrite Hst; change (200 =? 200) with true; cbv iota.
  destruct items as [|x items].
  - inversion HF; subst; run_emits.
  - change (firstn 5 (x :: items)) with (x :: firstn 4 items) in HF.
    inversion HF; subst; run_emits.
Qed.

Lemma user_tokens_show_20 (self : FCMTester) (user_id : pystr) (w : World)
    resp items recs :
  snd (requests_post (env w) (user_tokens_request self user_id)) = inr resp ->
  status_code resp = 200 ->
  json_body resp = Some (PList items) ->
  Forall2 user_record items recs ->
  get_user_fcm_tokens self user_id w =
    (after w (user_tokens_request self user_id) (CallUserTokens user_id)
       ((MAGNIFIER :: lit " Getting FCM tokens for user: " +++ user_id)
        :: (CHECK_MARK :: lit " Found " +++ str_int (Z.of_nat (List.length items))
              +++ lit " FCM tokens for user " +++ user_id)
        :: listing user_listing 0 recs),
     Return true).
Proof.
  intros Hreply Hst Hj HF.
  assert (Hloop : emits (for_enumerate 0 items show_user_token)
                        (listing user_listing 0 recs) (Return tt))
    by exact (@loop_lists _ _ _ _ _ _ _ _ _ show_user_token_spec
                user_record_view HF).
  unfold get_user_fcm_tokens.
  apply method_run_exact with (resp := resp); [exact Hreply|].
  cbv beta; rewrite Hst; change (200 =? 200) with true; cbv iota.
  run_emits.
Qed.

Lemma dispatch_shows_full_tokens (self : FCMTester) (user_id : option pystr)
    (test_all_users : bool) (w : World) resp d items outs :
  let rq := send_request self user_id test_all_users (time_time (env w)) in
  snd (requests_post (env w) rq) = inr resp ->
  status_code resp = 200 ->
  json_body resp = Some (PDict d) ->
  writable (Py.dict_get_or d (lit "message") (PStr (lit "No message"))) = true ->
  Py.dict_get d (lit "results") = Some (PList items) ->
  Forall2 device_result (firstn 3 items) outs ->
  summary_ok (Py.dict_get d (lit "summary")) = true ->
  dispatch_notification self user_id test_all_users w =
    (mkWorld (fst (requests_post (env w) rq))
             (stdout w ++ dispatch_report d (List.length items) outs)
             (sent w ++ [rq]) (trace w),
     Return true).
Proof.
  cbv zeta; intros Hreply Hst Hj Hm Hr HF Hsum.
  assert (Hloop : emits (for_enumerate 0 (firstn 3 items) show_device_result)
                        (listing result_listing 0 outs) (Return tt))
    by exact (@loop_lists _ _ _ _ _ _ _ _ _ show_device_result_spec
                device_result_record_view HF).
  apply writable_shown in Hm.
  unfold dispatch_notification; rewrite bind_now; cbv beta zeta.
  apply try_post_exact with (resp := resp); [exact Hreply|].
  cbv beta; rewrite Hst; change (200 =? 200) with true; cbv iota.
  unfold dispatch_report.
  destruct (Py.dict_get d (lit "summary")) as [summary|] eqn:Hs.
  - destruct summary as [| | | | | | |sd]; try discriminate Hsum.
    cbn [summary_ok] in Hsum; rewrite !andb_true_iff in Hsum.
    destruct Hsum as [[[S1 S2] S3] S4].
    apply writable_shown in S1, S2, S3, S4.
    intros w'; unfold shown in *;
      cbv [bind lift print ret raise response_json]; cbn.
    rewrite Hj; cbn; rewrite ?encode_app, ?encode_plain, Hm; cbn.
    rewrite Hr; cbn; rewrite ?encode_plain; cbn; rewrite Hloop; cbn.
    rewrite Hs; cbn.
    rewrite ?encode_app, ?encode_plain, S1, S2, S3, S4; cbn.
    rewrite ?out_out; cbn; rewrite <- ?app_assoc; reflexivity.
  - intros w'; unfold shown in *;
      cbv [bind lift print ret raise response_json]; cbn.
    rewrite Hj; cbn; rewrite ?encode_app, ?encode_plain, Hm; cbn.
    rewrite Hr; cbn; rewrite ?encode_plain; cbn; rewrite Hloop; cbn.
    rewrite Hs; cbn.
    rewrite ?out_out; cbn; rewrite ?app_nil_r; reflexivity.
Qed.

Lemma send_shows_full_tokens (self : FCMTester) (user_id : option pystr)
    (test_all_users : bool) (w : World) resp d items outs :
  let rq := send_request self user_id test_all_users (time_time (env w)) in
  has_target user_id test_all_users = true ->
  snd (requests_post (env w) rq) = inr resp ->
  status_code resp = 200 ->
  json_body resp = Some (PDict d) ->
  writable (Py.dict_get_or d (lit "message") (PStr (lit "No message"))) = true ->
  Py.dict_get d (lit "results") = Some (PList items) ->
  Forall2 device_result (firstn 3 items) outs ->
  summary_ok (Py.dict_get d (lit "summary")) = true ->
  send_test_notification self user_id test_all_users w =
    (after w rq (CallSend user_id test_all_users)
       ((OUTBOX :: lit " Sending test notification...")
        :: target_line user_id
        :: dispatch_report d (List.length items) outs),
     Return true).
Proof.
  cbv zeta; intros Htarget Hreply Hst Hj Hm Hr HF Hsum.
  assert (Hgo : forall banner target,
    (enter (CallSend user_id test_all_users) ;;
     print (plain banner) ;; print (plain target) ;;
     dispatch_notification self user_id test_all_users) w =
      (after w (send_request self user_id test_all_users (time_time (env w)))
             (CallSend user_id test_all_users)
             (banner :: target :: dispatch_report d (List.length items) outs),
       Return true)).
  { intros banner target; rewrite prelude_run.
    rewrite dispatch_shows_full_tokens
      with (resp := resp) (d := d) (items := items) (outs := outs);
      try assumption.
    unfold after; cbn [env stdout sent trace].
    f_equal; apply world_eq; try reflexivity.
    now rewrite <- app_assoc. }
  unfold send_test_notification, target_line.
  unfold has_target in Htarget.
  destruct (Py.truthy_opt user_id); [apply Hgo|].
  destruct test_all_users; [apply Hgo|discriminate].
Qed.

(** C5 (amended): for the Device Token Records they display (the first
    five, all), the token-registration check and the per-user lookup
    print the first 20 characters of the token followed by "..."; what
    they show is the whole token only when it has at most 20 characters.
    The send report prints, for each of the first three per-device
    results, the whole token. *)
Theorem listings_truncate_tokens_send_does_not :
  (forall (self : FCMTester) (w : World) resp items recs,
      snd (requests_post (env w) (registration_request self)) = inr resp ->
      status_code resp = 200 ->
      json_body resp = Some (PList items) ->
      Forall2 active_record (firstn 5 items) recs ->
      test_token_registration self w =
        (after w (registration_request self) CallTokenRegistration
           ((MAGNIFIER :: lit " Testing FCM token registration...")
            :: (CHECK_MARK :: lit " Found " +++ str_int (Z.of_nat (List.length items))
                  +++ lit " active FCM tokens in database")
            :: match recs with
               | [] => [ WARNING +++ lit "  No active FCM tokens found. Make sure to register tokens from your iOS app first." ]
               | _ =>
                   (NL :: PHONE :: lit " Active FCM tokens:")
                   :: listing
                        (fun i r =>
                           [ lit "  " +++ str_int (i + 1) +++ lit ". User: "
                               +++ text_of (rec_user_id r);
                             lit "     Token: " +++ firstn 20 (rec_token r)
                               +++ lit "...";
                             lit "     Device: " +++ text_of (rec_device_id r);
                             lit "     Platform: " +++ text_of (rec_platform r);
                             lit "     Updated: " +++ text_of (rec_updated_at r);
                             [] ])
                        0 recs
               end),
         Return true))
  /\ (forall (self : FCMTester) (user_id : pystr) (w : World) resp items recs,
      snd (requests_post (env w) (user_tokens_request self user_id)) = inr resp ->
      status_code resp = 200 ->
      json_body resp = Some (PList items) ->
      Forall2 user_record items recs ->
      get_user_fcm_tokens self user_id w =
        (after w (user_tokens_request self user_id) (CallUserTokens user_id)
           ((MAGNIFIER :: lit " Getting FCM tokens for user: " +++ user_id)
            :: (CHECK_MARK :: lit " Found " +++ str_int (Z.of_nat (List.length items))
                  +++ lit " FCM tokens for user " +++ user_id)
            :: listing
                 (fun i r =>
                    [ lit "  " +++ str_int (i + 1) +++ lit ". Token: "
                        +++ firstn 20 (rec_token r) +++ lit "...";
                      lit "     Device: " +++ text_of (rec_device_id r);
                      lit "     Platform: " +++ text_of (rec_platform r);
                      lit "     App Version: " +++ text_of (rec_app_version r);
                      lit "     Updated: " +++ text_of (rec_updated_at r);
                      [] ])
                 0 recs),
         Return true))
  /\ (forall (self : FCMTester) (user_id : option pystr) (test_all_users : bool)
        (w : World) resp d items outs,
      has_target user_id test_all_users = true ->
      snd (requests_post (env w)
             (send_request self user_id test_all_users (time_time (env w))))
        = inr resp ->
      status_code resp = 200 ->
      json_body resp = Some (PDict d) ->
      writable (Py.dict_get_or d (lit "message") (PStr (lit "No message"))) = true ->
      Py.dict_get d (lit "results") = Some (PList items) ->
      Forall2 device_result (firstn 3 items) outs ->
      summary_ok (Py.dict_get d (lit "summary")) = true ->
      send_test_notification self user_id test_all_users w =
        (after w (send_request self user_id test_all_users (time_time (env w)))
           (CallSend user_id test_all_users)
           ([ OUTBOX :: lit " Sending test notification...";
              target_line user_id;
              CHECK_MARK :: lit " Test notification sent successfully!";
              lit "   Message: "
                +++ text_of (Py.dict_get_or d (lit "message")
                               (PStr (lit "No message")));
              lit "   Sent to " +++ str_int (Z.of_nat (List.length items))
                +++ lit " device(s)" ]
            ++ listing
                 (fun i r =>
                    [ lit "     " +++ str_int (i + 1) +++ lit ". Device: "
                        +++ text_of (res_device_id r) +++ lit " ("
                        +++ text_of (res_platform r) +++ lit ")";
                      lit "        Token: " +++ res_token r ])
                 0 outs
            ++ summary_lines (Py.dict_get d (lit "summary"))),
         Return true))
  /\ (forall r : DeviceTokenRecord,
        firstn 20 (rec_token r) = rec_token r
        <-> (List.length (rec_token r) <= 20)%nat).
Proof.
  split; [|split; [|split]].
  - exact registration_shows_20.
  - exact user_tokens_show_20.
  - intros self user_id test_all_users w resp d items outs Ht Hreply Hst Hj Hm Hr HF Hs.
    exact (send_shows_full_tokens self user_id test_all_users w Ht Hreply Hst
             Hj Hm Hr HF Hs).
  - intros r; split.
    + intros H; rewrite <- H at 1; rewrite length_firstn; lia.
    + apply firstn_all2.
Qed.

Lemma views_none {A F} (view : A -> option F) x items :
  In x items -> view x = None -> views view items = None.
Proof.
  induction items as [|y items IH]; [contradiction|].
  intros [->|Hin] Hx; cbn.
  - now rewrite Hx.
  - rewrite (IH Hin Hx); now destruct (view y).
Qed.

Ltac view_none :=
  repeat first
    [ reflexivity
    | congruence
    | match goal with
      | |- context [match ?t with _ => _ end] => destruct t eqn:?
      end ].

Lemma active_token_view_lacking x k :
  In k registration_fields -> field x k = None -> active_token_view x = None.
Proof.
  intros Hk Hx; destruct x; try reflexivity.
  unfold field in Hx; unfold active_token_view, shown_field, shown_cut.
  cbn in Hk; repeat destruct Hk as [<-|Hk]; try contradiction;
    rewrite Hx; view_none.
Qed.

Lemma user_token_view_lacking x k :
  In k user_token_fields -> field x k = None -> user_token_view x = None.
Proof.
  intros Hk Hx; destruct x; try reflexivity.
  unfold field in Hx; unfold user_token_view, shown_field, shown_cut.
  cbn in Hk; repeat destruct Hk as [<-|Hk]; try contradiction;
    rewrite Hx; view_none.
Qed.

Lemma device_result_view_lacking x k :
  In k device_result_fields -> field x k = None -> device_result_view x = None.
Proof.
  intros Hk Hx; destruct x; try reflexivity.
  unfold field in Hx; unfold device_result_view, shown_field.
  cbn in Hk; repeat destruct Hk as [<-|Hk]; try contradiction;
    rewrite Hx; view_none.
Qed.

Lemma invoke_returns (self : FCMTester) (c : Call) (w : World) :
  exists b, snd (invoke self c w) = Return b.
Proof.
  assert (H : runs (invoke self c) c).
  { destruct c; cbn;
      [ apply runs_health | apply runs_registration
      | apply runs_send | apply runs_user_tokens ]. }
  destruct (H w) as (w' & b & -> & _); now exists b.
Qed.

Lemma transport_fault_is_failure (self : FCMTester) (c : Call) (w : World) rq msg :
  request_of self c (time_time (env w)) = Some rq ->
  snd (requests_post (env w) rq) = inl msg ->
  snd (invoke self c w) = Return false.
Proof.
  destruct c as [| |user_id test_all_users|user_id]; cbn [request_of invoke].
  - intros [= <-] Hreply.
    destruct (test_edge_function_health_run self w) as [lines ->].
    cbn [snd]; now rewrite Hreply.
  - intros [= <-] Hreply.
    destruct (test_token_registration_run self w) as [lines ->].
    cbn [snd]; now rewrite Hreply.
  - pose proof (send_test_notification_run self user_id test_all_users w) as H.
    destruct (has_target user_id test_all_users); [|discriminate].
    intros [= <-] Hreply; destruct H as [lines ->].
    cbn [snd]; now rewrite Hreply.
  - intros [= <-] Hreply.
    destruct (get_user_fcm_tokens_run self user_id w) as [lines ->].
    cbn [snd]; now rewrite Hreply.
Qed.

Lemma registration_missing_field (self : FCMTester) (w : World) resp items x k :
  snd (requests_post (env w) (registration_request self)) = inr resp ->
  json_body resp = Some (PList items) ->
  In x (firstn 5 items) -> In k registration_fields -> field x k = None ->
  snd (test_token_registration self w) = Return false.
Proof.
  intros Hreply Hj Hx Hk Hlack.
  destruct (test_token_registration_run self w) as [lines ->].
  cbn [snd]; rewrite Hreply; unfold verdict, registration_ok, viewed.
  rewrite Hj.
  erewrite views_none;
    [|exact Hx|eapply active_token_view_lacking; eassumption].
  now rewrite andb_false_r.
Qed.

Lemma user_tokens_missing_field (self : FCMTester) (user_id : pystr) (w : World)
    resp items x k :
  snd (requests_post (env w) (user_tokens_request self user_id)) = inr resp ->
  json_body resp = Some (PList items) ->
  In x items -> In k user_token_fields -> field x k = None ->
  snd (get_user_fcm_tokens self user_id w) = Return false.
Proof.
  intros Hreply Hj Hx Hk Hlack.
  destruct (get_user_fcm_tokens_run self user_id w) as [lines ->].
  cbn [snd]; rewrite Hreply; unfold verdict, user_tokens_ok, viewed.
  rewrite Hj.
  erewrite views_none;
    [|exact Hx|eapply user_token_view_lacking; eassumption].
  now rewrite andb_false_r.
Qed.

Lemma send_missing_field (self : FCMTester) (user_id : option pystr)
    (test_all_users : bool) (w : World) resp d items x k :
  snd (requests_post (env w)
         (send_request self user_id test_all_users (time_time (env w)))) = inr resp ->
  json_body resp = Some (PDict d) ->
  Py.dict_get d (lit "results") = Some (PList items) ->
  In x (firstn 3 items) -> In k device_result_fields -> field x k = None ->
  snd (send_test_notification self user_id test_all_users w) = Return false.
Proof.
  intros Hreply Hj Hr Hx Hk Hlack.
  pose proof (send_test_notification_run self user_id test_all_users w) as H.
  destruct (has_target user_id test_all_users); [|now rewrite H].
  destruct H as [lines ->].
  cbn [snd]; rewrite Hreply; unfold verdict, send_ok, results_ok, viewed.
  rewrite Hj, Hr.
  erewrite views_none;
    [|exact Hx|eapply device_result_view_lacking; eassumption].
  rewrite andb_false_r; cbn [andb]; now rewrite andb_false_r.
Qed.

(** *** The replies that make an operation succeed *)

Lemma writable_printable v : writable v = printable v.
Proof.
  unfold writable, shown.
  destruct v as [|[|]| | | |s| |]; cbn [fmt printable];
    rewrite ?encode_plain; try reflexivity.
  now rewrite encode_clean.
Qed.

Lemma shown_field_prints d k :
  match shown_field d k with Some _ => true | None => false end
  = prints_field (PDict d) k.
Proof.
  unfold shown_field, prints_field.
  destruct (Py.dict_get d (lit k)) as [v|]; [|reflexivity].
  apply writable_printable.
Qed.


Lemma viewed_forallb {A F} (view : A -> option F) (shows : A -> bool) items :
  (forall x, match view x with Some _ => true | None => false end = shows x) ->
  viewed view items = forallb shows items.
Proof.
  intros Hv; unfold viewed; induction items as [|x items IH]; cbn; [reflexivity|].
  rewrite <- (Hv x), <- IH.
  destruct (view x); [|reflexivity].
  now destruct (views view items).
Qed.



Lemma device_result_view_shows x :
  match device_result_view x with Some _ => true | None => false end = shows_result x.
Proof.
  destruct x as [| | | | | | |d]; try reflexivity.
  unfold shows_result, device_result_view.
  rewrite <- !shown_field_prints.
  destruct (shown_field d "device_id"), (shown_field d "platform"),
    (shown_field d "token"); reflexivity.
Qed.

Lemma writable_optional d k default :
  printable default = true ->
  writable (Py.dict_get_or d (lit k) default) = prints_optional d k.
Proof.
  intros Hd; unfold Py.dict_get_or, prints_optional.
  rewrite writable_printable.
  now destruct (Py.dict_get d (lit k)).
Qed.



Lemma send_ok_succeeds reply : verdict send_ok reply = send_succeeds reply.
Proof.
  destruct reply as [msg|resp]; [reflexivity|].
  unfold verdict, send_ok, send_succeeds; f_equal.
  destruct (json_body resp) as [[| | | | | | |d]|]; try reflexivity.
  rewrite writable_optional by reflexivity.
  f_equal; [f_equal|].
  - unfold results_ok.
    destruct (Py.dict_get d (lit "results")) as [[| | | |[|c s]|[|c s]|items|rd]|];
      try reflexivity.
    apply viewed_forallb, device_result_view_shows.
  - unfold summary_ok.
    destruct (Py.dict_get d (lit "summary")) as [[| | | | | | |sd]|];
      try reflexivity.
    now rewrite !writable_optional by reflexivity.
Qed.

(** *** Faults, and what a display does not read *)

Lemma send_tolerates_missing_blocks (self : FCMTester) (user_id : option pystr)
    (test_all_users : bool) (w : World) resp d :
  has_target user_id test_all_users = true ->
  snd (requests_post (env w)
         (send_request self user_id test_all_users (time_time (env w)))) = inr resp ->
  status_code resp = 200 ->
  json_body resp = Some (PDict d) ->
  (forall m, Py.dict_get d (lit "message") = Some m -> printable m = true) ->
  (forall results, Py.dict_get d (lit "results") = Some results ->
     exists items, results = PList items
                   /\ forallb shows_result (firstn 3 items) = true) ->
  (forall summary, Py.dict_get d (lit "summary") = Some summary ->
     exists sd, summary = PDict sd
                /\ forall k v, Py.dict_get sd k = Some v -> printable v = true) ->
  snd (send_test_notification self user_id test_all_users w) = Return true.
Proof.
  intros Ht Hreply Hst Hj Hm Hr Hs.
  pose proof (send_test_notification_run self user_id test_all_users w) as H.
  rewrite Ht in H; destruct H as [lines ->].
  cbn [snd]; rewrite Hreply, send_ok_succeeds; unfold send_succeeds.
  rewrite Hst, Hj; change (200 =? 200) with true; cbn [andb].
  f_equal; repeat (apply andb_true_iff; split).
  - unfold prints_optional.
    destruct (Py.dict_get d (lit "message")) as [m|]; [now apply Hm|reflexivity].
  - destruct (Py.dict_get d (lit "results")) as [results|]; [|reflexivity].
    destruct (Hr results eq_refl) as (items & -> & Hitems); exact Hitems.
  - destruct (Py.dict_get d (lit "summary")) as [summary|]; [|reflexivity].
    destruct (Hs summary eq_refl) as (sd & -> & Hsd).
    unfold prints_optional.
    repeat (apply andb_true_iff; split);
      match goal with
      | |- match Py.dict_get sd ?k with _ => _ end = true =>
          destruct (Py.dict_get sd k) eqn:E; [exact (Hsd _ _ E)|reflexivity]
      end.
Qed.

Lemma registration_reads_five (self : FCMTester) (w w' : World)
    resp resp' items items' :
  snd (requests_post (env w) (registration_request self)) = inr resp ->
  snd (requests_post (env w') (registration_request self)) = inr resp' ->
  status_code resp = status_code resp' ->
  json_body resp = Some (PList items) ->
  json_body resp' = Some (PList items') ->
  firstn 5 items = firstn 5 items' ->
  snd (test_token_registration self w) = snd (test_token_registration self w').
Proof.
  intros Hr Hr' Hst Hj Hj' H5.
  destruct (test_token_registration_run self w) as [lines ->].
  destruct (test_token_registration_run self w') as [lines' ->].
  cbn [snd]; rewrite Hr, Hr'; unfold verdict, registration_ok.
  now rewrite Hst, Hj, Hj', H5.
Qed.

Lemma send_reads_three (self : FCMTester) (user_id : option pystr)
    (test_all_users : bool) (w w' : World) resp resp' d d' items items' :
  snd (requests_post (env w)
         (send_request self user_id test_all_users (time_time (env w)))) = inr resp ->
  snd (requests_post (env w')
         (send_request self user_id test_all_users (time_time (env w')))) = inr resp' ->
  status_code resp = status_code resp' ->
  json_body resp = Some (PDict d) ->
  json_body resp' = Some (PDict d') ->
  Py.dict_get d (lit "message") = Py.dict_get d' (lit "message") ->
  Py.dict_get d (lit "summary") = Py.dict_get d' (lit "summary") ->
  Py.dict_get d (lit "results") = Some (PList items) ->
  Py.dict_get d' (lit "results") = Some (PList items') ->
  firstn 3 items = firstn 3 items' ->
  snd (send_test_notification self user_id test_all_users w)
    = snd (send_test_notification self user_id test_all_users w').
Proof.
  intros Hr Hr' Hst Hj Hj' Hm Hs Hres Hres' H3.
  pose proof (send_test_notification_run self user_id test_all_users w) as H.
  pose proof (send_test_notification_run self user_id test_all_users w') as H'.
  destruct (has_target user_id test_all_users); [|now rewrite H, H'].
  destruct H as [lines ->], H' as [lines' ->].
  cbn [snd]; rewrite Hr, Hr'; unfold verdict, send_ok, results_ok, Py.dict_get_or.
  now rewrite Hst, Hj, Hj', Hm, Hs, Hres, Hres', H3.
Qed.

(** C6 (amended): no operation lets an exception out; a transport fault
    makes it return false; so does a 200 response in which a record that
    the operation displays (one of the first five, any, one of the first
    three results) lacks a field the display reads.  A dispatch result is
    a success of the send whichever of [message], [results] and [summary]
    it lacks, when those it has can be displayed; and the records after
    those displayed are not read: they do not change what the
    token-registration check and the send return. *)
Theorem faults_are_failures_not_crashes :
  (forall (self : FCMTester) (c : Call) (w : World),
      exists b, snd (invoke self c w) = Return b)
  /\ (forall (self : FCMTester) (c : Call) (w : World) rq msg,
        request_of self c (time_time (env w)) = Some rq ->
        snd (requests_post (env w) rq) = inl msg ->
        snd (invoke self c w) = Return false)
  /\ (forall (self : FCMTester) (w : World) resp items x k,
        snd (requests_post (env w) (registration_request self)) = inr resp ->
        json_body resp = Some (PList items) ->
        In x (firstn 5 items) -> In k registration_fields -> field x k = None ->
        snd (test_token_registration self w) = Return false)
  /\ (forall (self : FCMTester) (user_id : pystr) (w : World) resp items x k,
        snd (requests_post (env w) (user_tokens_request self user_id)) = inr resp ->
        json_body resp = Some (PList items) ->
        In x items -> In k user_token_fields -> field x k = None ->
        snd (get_user_fcm_tokens self user_id w) = Return false)
  /\ (forall (self : FCMTester) (user_id : option pystr) (test_all_users : bool)
        (w : World) resp d items x k,
        snd (requests_post (env w)
               (send_request self user_id test_all_users (time_time (env w))))
          = inr resp ->
        json_body resp = Some (PDict d) ->
        Py.dict_get d (lit "results") = Some (PList items) ->
        In x (firstn 3 items) -> In k device_result_fields -> field x k = None ->
        snd (send_test_notification self user_id test_all_users w) = Return false)
  /\ (forall (self : FCMTester) (user_id : option pystr) (test_all_users : bool)
        (w : World) resp d,
        has_target user_id test_all_users = true ->
        snd (requests_post (env w)
               (send_request self user_id test_all_users (time_time (env w))))
          = inr resp ->
        status_code resp = 200 ->
        json_body resp = Some (PDict d) ->
        (forall m, Py.dict_get d (lit "message") = Some m -> printable m = true) ->
        (forall results, Py.dict_get d (lit "results") = Some results ->
           exists items, results = PList items
                         /\ forallb shows_result (firstn 3 items) = true) ->
        (forall summary, Py.dict_get d (lit "summary") = Some summary ->
           exists sd, summary = PDict sd
                      /\ forall k v, Py.dict_get sd k = Some v -> printable v = true) ->
        snd (send_test_notification self user_id test_all_users w) = Return true)
  /\ (forall (self : FCMTester) (w w' : World) resp resp' items items',
        snd (requests_post (env w) (registration_request self)) = inr resp ->
        snd (requests_post (env w') (registration_request self)) = inr resp' ->
        status_code resp = status_code resp' ->
        json_body resp = Some (PList items) ->
        json_body resp' = Some (PList items') ->
        firstn 5 items = firstn 5 items' ->
        snd (test_token_registration self w) = snd (test_token_registration self w'))
  /\ (forall (self : FCMTester) (user_id : option pystr) (test_all_users : bool)
        (w w' : World) resp resp' d d' items items',
        snd (requests_post (env w)
               (send_request self user_id test_all_users (time_time (env w))))
          = inr resp ->
        snd (requests_post (env w')
               (send_request self user_id test_all_users (time_time (env w'))))
          = inr resp' ->
        status_code resp = status_code resp' ->
        json_body resp = Some (PDict d) ->
        json_body resp' = Some (PDict d') ->
        Py.dict_get d (lit "message") = Py.dict_get d' (lit "message") ->
        Py.dict_get d (lit "summary") = Py.dict_get d' (lit "summary") ->
        Py.dict_get d (lit "results") = Some (PList items) ->
        Py.dict_get d' (lit "results") = Some (PList items') ->
        firstn 3 items = firstn 3 items' ->
        snd (send_test_notification self user_id test_all_users w)
          = snd (send_test_notification self user_id test_all_users w')).
Proof.
  split; [exact invoke_returns|].
  split; [exact transport_fault_is_failure|].
  split; [exact registration_missing_field|].
  split; [exact user_tokens_missing_field|].
  split; [exact send_missing_field|].
  split; [exact send_tolerates_missing_blocks|].
  split; [exact registration_reads_five|exact send_reads_three].
Qed.

(** ** Further properties of the methods and of the dispatcher *)

Lemma invoke_leaves (self : FCMTester) (c : Call) (w : World) :
  exists lines b, invoke self c w = (left_by self c w lines, Return b).
Proof.
  unfold left_by; destruct c as [| |user_id test_all_users|user_id];
    cbn [invoke request_of].
  - destruct (test_edge_function_health_run self w) as [lines ->]; eauto.
  - destruct (test_token_registration_run self w) as [lines ->]; eauto.
  - pose proof (send_test_notification_run self user_id test_all_users w) as H.
    destruct (has_target user_id test_all_users).
    + destruct H as [lines ->]; eauto.
    + rewrite H; eauto.
  - destruct (get_user_fcm_tokens_run self user_id w) as [lines ->]; eauto.
Qed.

Lemma request_none_iff (self : FCMTester) (c : Call) (t : Z) :
  request_of self c t = None <-> posts c = false.
Proof.
  destruct c as [| |user_id test_all_users|user_id]; cbn;
    try (split; discriminate).
  destruct (has_target user_id test_all_users); split; congruence.
Qed.

(** X1: an operation posts exactly the one request of its call, once, and
    none when a send has no target; the backend moves by that request
    only, and the operation is recorded once. *)
Theorem each_operation_posts_its_one_request
    (self : FCMTester) (c : Call) (w : World) :
  let w' := fst (invoke self c w) in
  let request := request_of self c (time_time (env w)) in
  sent w' = sent w ++ match request with Some rq => [rq] | None => [] end
  /\ env w' = match request with
              | Some rq => fst (requests_post (env w) rq)
              | None => env w
              end
  /\ trace w' = trace w ++ [c]
  /\ (request = None <-> posts c = false).
Proof.
  cbv zeta.
  destruct (invoke_leaves self c w) as (lines & b & ->); unfold left_by.
  pose proof (request_none_iff self c (time_time (env w))) as Hp.
  destruct (request_of self c (time_time (env w))); cbn;
    rewrite ?app_nil_r; auto.
Qed.

Lemma relates_ret R c0 : (forall w, R w [] w) -> relates R (ret c0) [].
Proof. intros Hrefl w; exists w, c0; split; [reflexivity|apply Hrefl]. Qed.

Lemma relates_tally R (m : M bool) c c0 :
  (forall w, exists w' b, m w = (w', Return b) /\ R w [c] w') ->
  relates R (tally m c0) [c].
Proof.
  intros Hm w; destruct c0 as [passed total].
  destruct (Hm w) as (w' & b & Hrun & HR).
  unfold tally, bind, ret; rewrite Hrun.
  eexists; eexists; split; [reflexivity|exact HR].
Qed.

Lemma relates_bind R m k calls1 calls2 :
  (forall w1 w2 w3 c1 c2, R w1 c1 w2 -> R w2 c2 w3 -> R w1 (c1 ++ c2) w3) ->
  relates R m calls1 ->
  (forall c, relates R (k c) calls2) ->
  relates R (bind m k) (calls1 ++ calls2).
Proof.
  intros Htrans Hm Hk w.
  destruct (Hm w) as (w1 & c1 & Hrun & HR1).
  destruct (Hk c1 w1) as (w2 & c2 & Hrun2 & HR2).
  unfold bind; rewrite Hrun, Hrun2.
  exists w2, c2; split; [reflexivity|exact (Htrans _ _ _ _ _ HR1 HR2)].
Qed.

Lemma relates_print R s m calls :
  (forall w1 w2 w3 c1 c2, R w1 c1 w2 -> R w2 c2 w3 -> R w1 (c1 ++ c2) w3) ->
  (forall w l, R w [] (out w [l])) ->
  relates R m calls -> relates R (print (plain s) ;; m) calls.
Proof.
  intros Htrans Hprint Hm w; rewrite bind_print.
  destruct (Hm (out w [s])) as (w' & c & Hrun & HR).
  exists w', c; split; [exact Hrun|].
  exact (Htrans _ _ _ [] calls (Hprint w s) HR).
Qed.

Lemma relates_if R (b : bool) m calls c0 :
  (forall w, R w [] w) ->
  relates R m calls ->
  relates R (if b then m else ret c0) (if b then calls else []).
Proof. intros Hrefl Hm; destruct b; [exact Hm|now apply relates_ret]. Qed.

(** A relation between worlds that every call, every printed line and
    their sequences keep is kept by the whole run of the tests. *)
Lemma run_tests_relates (R : World -> list Call -> World -> Prop) :
  (forall w, R w [] w) ->
  (forall w1 w2 w3 c1 c2, R w1 c1 w2 -> R w2 c2 w3 -> R w1 (c1 ++ c2) w3) ->
  (forall w l, R w [] (out w [l])) ->
  (forall self c w, R w [c] (fst (invoke self c w))) ->
  forall args self, relates R (run_tests args self) (executed args).
Proof.
  intros Hrefl Htrans Hprint Hcall args self.
  assert (Hm : forall c c0, relates R (tally (invoke self c) c0) [c]).
  { intros c c0; apply relates_tally; intros w.
    destruct (invoke_leaves self c w) as (lines & b & Hrun).
    exists (left_by self c w lines), b; split; [exact Hrun|].
    specialize (Hcall self c w); now rewrite Hrun in Hcall. }
  unfold run_tests, executed.
  destruct (arg_run_all_tests args).
  - apply relates_print; trivial.
    change [CallHealth; CallTokenRegistration; CallSend None true]
      with ([CallHealth] ++ [CallTokenRegistration] ++ [CallSend None true] ++ []).
    apply relates_bind; [trivial|exact (Hm CallHealth _)|intros c1].
    apply relates_print; trivial.
    apply relates_bind; [trivial|exact (Hm CallTokenRegistration _)|intros c2].
    apply relates_print; trivial.
    apply relates_bind; [trivial|exact (Hm (CallSend None true) _)|intros c3].
    apply relates_print; trivial.
    now apply relates_ret.
  - apply relates_bind; [trivial|apply relates_if; [trivial|exact (Hm CallHealth _)]|intros c1].
    apply relates_bind;
      [trivial|apply relates_if; [trivial|exact (Hm CallTokenRegistration _)]|intros c2].
    apply relates_bind;
      [trivial|apply relates_if; [trivial|exact (Hm (CallSend _ _) _)]|intros c3].
    rewrite <- (app_nil_r (if Py.truthy_opt _ then _ else _)).
    apply relates_bind;
      [trivial|apply relates_if; [trivial|exact (Hm (CallUserTokens _) _)]|intros c4].
    now apply relates_ret.
Qed.

Lemma main_relates (R : World -> list Call -> World -> Prop) :
  (forall w, R w [] w) ->
  (forall w1 w2 w3 c1 c2, R w1 c1 w2 -> R w2 c2 w3 -> R w1 (c1 ++ c2) w3) ->
  (forall w l, R w [] (out w [l])) ->
  (forall self c w, R w [c] (fst (invoke self c w))) ->
  forall args w, R w (executed args) (fst (main args w)).
Proof.
  intros Hrefl Htrans Hprint Hcall args w; unfold main, bind.
  destruct (@run_tests_relates R Hrefl Htrans Hprint Hcall args
              (FCMTester_init (arg_supabase_url args) (arg_supabase_key args)) w)
    as (w1 & counts & -> & HR).
  rewrite report_run; cbn [fst].
  rewrite <- (app_nil_r (executed args)).
  apply Htrans with (w2 := w1); [exact HR|].
  match goal with
  | |- R w1 [] (out w1 [?a; ?b]) =>
      change [a; b] with ([a] ++ [b]); rewrite <- out_out;
      exact (Htrans _ _ _ [] [] (Hprint w1 a) (Hprint (out w1 [a]) b))
  end.
Qed.

(** X2: a run of [main] posts one request for each call it makes, except
    for a send without a target, and no other: three requests in
    aggregate mode, at most four in selective mode. *)
Theorem main_posts_one_request_per_call (args : Args) (w : World) :
  List.length (sent (fst (main args w)))
    = (List.length (sent w) + List.length (filter posts (executed args)))%nat
  /\ (if arg_run_all_tests args
      then List.length (filter posts (executed args)) = 3%nat
      else (List.length (filter posts (executed args)) <= 4)%nat).
Proof.
  assert (H : List.length (sent (fst (main args w)))
              = (List.length (sent w) + List.length (filter posts (executed args)))%nat).
  { apply (main_relates
             (fun w calls w' =>
                List.length (sent w')
                  = (List.length (sent w) + List.length (filter posts calls))%nat)).
    - intros w0; cbn; lia.
    - intros w1 w2 w3 c1 c2 H1 H2.
      rewrite filter_app, length_app; lia.
    - intros w0 l; cbn; lia.
    - intros self c w0.
      destruct (invoke_leaves self c w0) as (lines & b & ->); unfold left_by.
      pose proof (request_none_iff self c (time_time (env w0))) as Hp.
      cbn [filter].
      destruct (request_of self c (time_time (env w0))) as [rq|]; cbn [fst].
      + destruct (posts c).
        * cbn; rewrite length_app; reflexivity.
        * destruct Hp as [_ Hp]; discriminate (Hp eq_refl).
      + destruct Hp as [Hp _]; rewrite (Hp eq_refl); cbn; lia. }
  split; [exact H|].
  unfold executed.
  destruct (arg_run_all_tests args); [reflexivity|].
  destruct (arg_test_edge_function args), (arg_test_token_registration args),
    (arg_send_test_notification args), (Py.truthy_opt (arg_get_user_tokens args));
    cbn; try lia; destruct (has_target _ _); cbn; lia.
Qed.

(** *** Failure reports *)

Lemma try_post_fault u h j (k : Response -> M bool) handler msg ls b w :
  snd (requests_post (env w) (mkRequest u h j)) = inl msg ->
  emits (handler (RequestException msg)) ls (Return b) ->
  try_except (bind (post u h j) k) handler w =
    (mkWorld (fst (requests_post (env w) (mkRequest u h j)))
             (stdout w ++ ls) (sent w ++ [mkRequest u h j]) (trace w),
     Return b).
Proof.
  intros Hreply Hh; unfold try_except, bind, post.
  destruct (requests_post (env w) (mkRequest u h j)) as [e' reply].
  cbn in Hreply; subst reply; cbn [fst snd is_Exception]; now rewrite Hh.
Qed.


(** The three outcomes of a [try] statement, in a world given by its parts. *)
Lemma try_at_fault u h j (k : Response -> M bool) handler msg ls b e0 o0 s0 t0 :
  snd (requests_post e0 (mkRequest u h j)) = inl msg ->
  emits (handler (RequestException msg)) ls (Return b) ->
  try_except (bind (post u h j) k) handler (mkWorld e0 o0 s0 t0) =
    (mkWorld (fst (requests_post e0 (mkRequest u h j)))
             (o0 ++ ls) (s0 ++ [mkRequest u h j]) t0,
     Return b).
Proof. intros Hreply Hh; now apply try_post_fault with (msg := msg). Qed.

Lemma try_at_response u h j (k : Response -> M bool) handler resp ls b e0 o0 s0 t0 :
  snd (requests_post e0 (mkRequest u h j)) = inr resp ->
  emits (k resp) ls (Return b) ->
  try_except (bind (post u h j) k) handler (mkWorld e0 o0 s0 t0) =
    (mkWorld (fst (requests_post e0 (mkRequest u h j)))
             (o0 ++ ls) (s0 ++ [mkRequest u h j]) t0,
     Return b).
Proof. intros Hreply Hk; now apply try_post_exact with (resp := resp). Qed.


(** The banner, then a [try] statement of which the outcome is known. *)
Lemma banner_then_try c banner (try_part : M bool) rq ls b w :
  try_part (mkWorld (env w) (stdout w ++ [banner]) (sent w) (trace w ++ [c])) =
    (mkWorld (fst (requests_post (env w) rq)) ((stdout w ++ [banner]) ++ ls)
             (sent w ++ [rq]) (trace w ++ [c]),
     Return b) ->
  (enter c ;; print (plain banner) ;; try_part) w =
    (after w rq c (banner :: ls), Return b).
Proof.
  intros Htry.
  unfold bind at 1, enter; rewrite bind_print;
    unfold out; cbn [fst snd env stdout sent trace].
  rewrite Htry; unfold after.
  f_equal; apply world_eq; try reflexivity.
  now rewrite <- app_assoc.
Qed.

(** The same for a send with a target, whose [try] statement comes after
    the target line. *)
Lemma send_through_dispatch (self : FCMTester) (user_id : option pystr)
    (test_all_users : bool) rq ls b w :
  has_target user_id test_all_users = true ->
  dispatch_notification self user_id test_all_users
    (mkWorld (env w) (stdout w ++ banner_lines (CallSend user_id test_all_users))
             (sent w) (trace w ++ [CallSend user_id test_all_users])) =
    (mkWorld (fst (requests_post (env w) rq))
             ((stdout w ++ banner_lines (CallSend user_id test_all_users)) ++ ls)
             (sent w ++ [rq]) (trace w ++ [CallSend user_id test_all_users]),
     Return b) ->
  send_test_notification self user_id test_all_users w =
    (after w rq (CallSend user_id test_all_users)
       (banner_lines (CallSend user_id test_all_users) ++ ls),
     Return b).
Proof.
  intros Htarget Hrun.
  assert (Hgo : forall target,
    target = target_line user_id ->
    (enter (CallSend user_id test_all_users) ;;
     print (plain (OUTBOX :: lit " Sending test notification...")) ;;
     print (plain target) ;;
     dispatch_notification self user_id test_all_users) w =
      (after w rq (CallSend user_id test_all_users)
             (banner_lines (CallSend user_id test_all_users) ++ ls),
       Return b)).
  { intros target ->; rewrite prelude_run.
    cbn [banner_lines] in Hrun |- *; refine (eq_trans Hrun _).
    unfold after; f_equal; apply world_eq; try reflexivity.
    now rewrite <- app_assoc. }
  unfold send_test_notification; unfold has_target in Htarget.
  unfold target_line in Hgo.
  destruct (Py.truthy_opt user_id); [now apply Hgo|].
  destruct test_all_users; [now apply Hgo|discriminate].
Qed.

Ltac open_try :=
  lazymatch goal with
  | |- dispatch_notification _ _ _ _ = _ =>
      unfold dispatch_notification; rewrite bind_now; cbv beta zeta
  | _ => idtac
  end.

Ltac by_method c :=
  destruct c as [| |?user_id ?test_all_users|?user_id];
  cbn [invoke request_of accepts banner_lines error_heading failure_heading app];
  [ intros ? [= <-]; unfold test_edge_function_health; intros; apply banner_then_try
  | intros ? [= <-]; unfold test_token_registration; intros; apply banner_then_try
  | let Ht := fresh "Htarget" in
    destruct (has_target user_id test_all_users) eqn:Ht; [|discriminate];
    intros ? [= <-]; intros; apply send_through_dispatch; [exact Ht|]; open_try
  | intros ? [= <-]; unfold get_user_fcm_tokens; intros; apply banner_then_try ].

(** X3: a transport fault is reported in one line, after the banner, that
    names the exception; the operation returns false. *)
Theorem transport_fault_report (self : FCMTester) (c : Call) (w : World) rq msg :
  request_of self c (time_time (env w)) = Some rq ->
  snd (requests_post (env w) rq) = inl msg ->
  invoke self c w =
    (after w rq c
       (banner_lines c ++ [ error_heading c +++ str_exc (RequestException msg) ]),
     Return false).
Proof.
  revert rq; by_method c;
    (apply try_at_fault with (msg := msg); [assumption|run_emits]).
Qed.

(** X4: a response with a status the operation does not accept (any but
    200; for the health check any but 200 and 400) is reported in two
    lines, the status and the raw text of the response, and the operation
    returns false. *)
Theorem rejected_status_report (self : FCMTester) (c : Call) (w : World) rq resp :
  request_of self c (time_time (env w)) = Some rq ->
  snd (requests_post (env w) rq) = inr resp ->
  accepts c (status_code resp) = false ->
  invoke self c w =
    (after w rq c
       (banner_lines c
          ++ [ failure_heading c +++ str_int (status_code resp);
               lit "Response: " +++ text resp ]),
     Return false).
Proof.
  revert rq; by_method c;
    (apply try_at_response with (resp := resp); [assumption|];
     cbv beta;
     match goal with H : _ = false |- _ => rewrite H end;
     run_emits).
Qed.


(** X6: every request a tester posts goes to its base address without
    trailing slashes, followed by one of three fixed paths, and carries the
    key in the [apikey] and [Authorization] headers. *)
Theorem every_request_is_authenticated
    (url key : pystr) (c : Call) (w : World) :
  exists new,
    sent (fst (invoke (FCMTester_init url key) c w)) = sent w ++ new
    /\ Forall (fun rq =>
                 rq_headers rq = auth_headers key
                 /\ exists path, In path endpoint_paths
                                 /\ rq_url rq = rstrip SLASH url +++ path)
              new.
Proof.
  destruct (invoke_leaves (FCMTester_init url key) c w) as (lines & b & ->).
  unfold left_by.
  destruct (request_of (FCMTester_init url key) c (time_time (env w)))
    as [rq|] eqn:Hrq.
  - exists [rq]; split; [reflexivity|].
    constructor; [|constructor].
    destruct c as [| |user_id test_all_users|user_id]; cbn in Hrq.
    + injection Hrq as <-; split; [reflexivity|].
      eexists; split; [right; left; reflexivity|reflexivity].
    + injection Hrq as <-; split; [reflexivity|].
      eexists; split; [left; reflexivity|reflexivity].
    + destruct (has_target user_id test_all_users); [|discriminate].
      injection Hrq as <-; split; [reflexivity|].
      eexists; split; [right; left; reflexivity|reflexivity].
    + injection Hrq as <-; split; [reflexivity|].
      eexists; split; [right; right; left; reflexivity|reflexivity].
  - exists []; cbn; rewrite app_nil_r; split; [reflexivity|constructor].
Qed.

(** *** The replies that make an operation succeed, exactly *)




(** *** The report, the flags, the address and the test identifier *)

Lemma script_run w :
  script w =
    match argparse_parse_args (env w) with
    | inl (written, status) => (out w written, Raise (SystemExit status))
    | inr args => main args w
    end.
Proof.
  unfold script, bind, parse_args.
  now destruct (argparse_parse_args (env w)) as [[written status]|args].
Qed.

(** X10: a run that [argparse] ends (the help, a command line it refuses)
    writes what [argparse] writes and leaves with its status, without a
    tally, a call or a request.  Every other run ends with two lines, the
    tally of passed and run tests and then "All tests passed!" when it
    exits with 0, the failure notice when it exits with 1, and it exits
    with no other status. *)
Theorem main_ends_with_its_tally (w : World) :
  match argparse_parse_args (env w) with
  | inl (written, status) =>
      script w = (out w written, Raise (SystemExit status))
  | inr args =>
      exists passed total lines code last,
        stdout (fst (script w)) =
          stdout w ++ lines ++
            [ NL :: BAR_CHART :: lit " Test Results: " +++ str_int passed
                +++ lit "/" +++ str_int total +++ lit " tests passed";
              last ]
        /\ snd (script w) = Raise (SystemExit code)
        /\ total = Z.of_nat (List.length (executed args))
        /\ 0 <= passed <= total
        /\ ((passed = total /\ code = 0 /\ last = PARTY :: lit " All tests passed!")
            \/ (passed < total /\ code = 1
                /\ last = CROSS_MARK
                            :: lit " Some tests failed. Check the output above for details."))
  end.
Proof.
  rewrite script_run.
  destruct (argparse_parse_args (env w)) as [[written status]|args]; [reflexivity|].
  unfold main, bind.
  destruct (run_tests_counts args
              (FCMTester_init (arg_supabase_url args) (arg_supabase_key args)) w)
    as (w1 & [passed total] & -> & _ & Htot & Hp & lines & Hout).
  cbn in Htot, Hp; rewrite report_run; cbn [fst snd out stdout].
  exists passed, total, lines, (if passed =? total then 0 else 1).
  eexists; split; [rewrite Hout, <- app_assoc; reflexivity|].
  split; [reflexivity|]; split; [lia|]; split; [lia|].
  destruct (Z.eqb_spec passed total); [left|right]; repeat split; lia.
Qed.

(** X11: a run depends on the flags only through [effective]: aggregate
    mode ignores every other flag (with [--user-id] it still sends to all
    users), and selective mode ignores [--user-id] and [--test-all-users]
    without [--send-test-notification]. *)
Theorem main_reads_only_the_effective_flags (args : Args) (w : World) :
  main args w = main (effective args) w
  /\ executed args = executed (effective args).
Proof.
  unfold main, run_tests, executed, effective.
  destruct (arg_run_all_tests args); [split; reflexivity|].
  cbn [arg_run_all_tests arg_supabase_url arg_supabase_key arg_test_edge_function
       arg_test_token_registration arg_send_test_notification arg_user_id
       arg_test_all_users arg_get_user_tokens].
  destruct (arg_send_test_notification args);
    destruct (arg_get_user_tokens args) as [[|c user_id]|]; split; reflexivity.
Qed.

Lemma rstrip_fixed c s : (forall p, s <> p ++ [c]) -> rstrip c s = s.
Proof.
  intros Hs; destruct (rstrip_stripped c s) as [[|k] Hk].
  - cbn in Hk; now rewrite app_nil_r in Hk.
  - exfalso; apply (Hs (rstrip c s ++ repeat c k)).
    rewrite <- app_assoc.
    replace (repeat c k ++ [c]) with (repeat c (S k)); [exact Hk|].
    clear; induction k as [|k IH]; cbn; [reflexivity|]; now rewrite <- IH.
Qed.

(** X12: the constructor keeps a base address that does not end in a
    slash, and only such an address; building a tester from the address a
    tester holds gives the same tester. *)
Theorem tester_address_is_normal (url key : pystr) :
  (supabase_url (FCMTester_init url key) = url <-> forall p, url <> p ++ [SLASH])
  /\ FCMTester_init (supabase_url (FCMTester_init url key)) key
       = FCMTester_init url key.
Proof.
  assert (Hidem : rstrip SLASH (rstrip SLASH url) = rstrip SLASH url)
    by (apply rstrip_fixed; intros p; apply rstrip_no_trailing).
  split; [split|].
  - intros H p; cbn in H; rewrite <- H; apply rstrip_no_trailing.
  - intros H; cbn; now apply rstrip_fixed.
  - unfold FCMTester_init; cbn [supabase_url]; now rewrite Hidem.
Qed.

Lemma lit_inj s s' : lit s = lit s' -> s = s'.
Proof.
  unfold lit; revert s'; induction s as [|a s IH]; intros [|a' s']; cbn;
    try discriminate; [reflexivity|].
  intros [= Ha Hs]; f_equal; [|now apply IH].
  rewrite <- (ascii_N_embedding a), <- (ascii_N_embedding a'); now rewrite Ha.
Qed.

Lemma str_int_inj z z' : str_int z = str_int z' -> z = z'.
Proof.
  unfold str_int; intros H; apply lit_inj in H.
  assert (Hn : forall z, NilZero.int_of_string (NilZero.string_of_int (Z.to_int z))
                         = Some (Z.to_int z)).
  { intros [|p|p]; [reflexivity| |];
      (apply NilZero.isi; cbn; intros [= Hp];
       now apply (DecimalPos.Unsigned.to_uint_nonnil p)). }
  apply DecimalZ.to_int_inj.
  pose proof (Hn z) as Hz; rewrite H, Hn in Hz; congruence.
Qed.

(** X13: the test identifier of a send is the clock reading in whole
    seconds, so two sends to the same target carry the same payload
    exactly when they are prepared within the same second. *)
Theorem payload_identifies_the_second
    (self : FCMTester) (user_id : option pystr) (test_all_users : bool) (t t' : Z) :
  (exists data,
      Py.dict_get (notification_payload user_id test_all_users t) (lit "data")
        = Some (PDict data)
      /\ Py.dict_get data (lit "test_id") = Some (PStr (lit "test_" +++ str_int t)))
  /\ (send_request self user_id test_all_users t
        = send_request self user_id test_all_users t' <-> t = t').
Proof.
  assert (Hv : forall t0,
    Py.dict_get (notification_payload user_id test_all_users t0) (lit "data")
      = Some (PDict [ (lit "test_id", PStr (lit "test_" +++ str_int t0));
                      (lit "source", PStr (lit "testing_script")) ])).
  { intros t0; unfold notification_payload.
    destruct (Py.truthy_opt user_id), test_all_users; reflexivity. }
  split.
  - eexists; split; [apply Hv|reflexivity].
  - split; [|now intros ->].
    intros H.
    assert (Hd : Py.dict_get (notification_payload user_id test_all_users t) (lit "data")
                 = Py.dict_get (notification_payload user_id test_all_users t') (lit "data"))
      by (unfold send_request in H; congruence).
    rewrite !Hv in Hd; injection Hd as Hd.
    now apply str_int_inj.
Qed.

(** *** The tally against the backend *)

Lemma invoke_returns_at (self : FCMTester) (c : Call) (w : World) :
  exists lines,
    invoke self c w = (left_by self c w lines, Return (returns_at self c (env w))).
Proof.
  unfold left_by, returns_at; destruct c as [| |user_id test_all_users|user_id];
    cbn [invoke request_of succeeds].
  - destruct (test_edge_function_health_run self w) as [lines ->]; eauto.
  - destruct (test_token_registration_run self w) as [lines ->]; eauto.
  - pose proof (send_test_notification_run self user_id test_all_users w) as H.
    destruct (has_target user_id test_all_users).
    + destruct H as [lines ->]; eauto.
    + rewrite H; eauto.
  - destruct (get_user_fcm_tokens_run self user_id w) as [lines ->]; eauto.
Qed.

Lemma outcomes_app self calls1 calls2 e :
  outcomes self (calls1 ++ calls2) e
    = outcomes self calls1 e ++ outcomes self calls2 (env_after_all self calls1 e).
Proof.
  revert e; induction calls1 as [|c calls1 IH]; intros e; cbn; [reflexivity|].
  now rewrite IH.
Qed.

Lemma env_after_all_app self calls1 calls2 e :
  env_after_all self (calls1 ++ calls2) e
    = env_after_all self calls2 (env_after_all self calls1 e).
Proof.
  revert e; induction calls1 as [|c calls1 IH]; intros e; cbn; [reflexivity|].
  now rewrite IH.
Qed.

Lemma passes_app l1 l2 : passes (l1 ++ l2) = passes l1 + passes l2.
Proof. unfold passes; rewrite filter_app, length_app; lia. Qed.

Lemma tallies_ret self c0 : tallies self (ret c0) [] c0.
Proof.
  intros w; exists w; destruct c0 as [p t]; cbn; unfold ret, passes; cbn.
  now rewrite !Z.add_0_r.
Qed.

Lemma tallies_tally self c c0 : tallies self (tally (invoke self c) c0) [c] c0.
Proof.
  intros w; destruct c0 as [p t].
  destruct (invoke_returns_at self c w) as [lines Hrun].
  unfold tally, bind, ret; rewrite Hrun.
  eexists; split.
  - cbn [fst snd outcomes List.length]; unfold passes; cbn [filter].
    destruct (returns_at self c (env w)); cbn; rewrite ?Z.add_0_r; reflexivity.
  - unfold left_by, after; cbn [env_after_all]; unfold env_after.
    now destruct (request_of self c (time_time (env w))).
Qed.

Lemma tallies_bind self m k calls1 calls2 c0 :
  tallies self m calls1 c0 ->
  (forall c, tallies self (k c) calls2 c) ->
  tallies self (bind m k) (calls1 ++ calls2) c0.
Proof.
  intros Hm Hk w.
  destruct (Hm w) as (w1 & Hrun & He).
  destruct (Hk (fst c0 + passes (outcomes self calls1 (env w)),
                snd c0 + Z.of_nat (List.length calls1)) w1) as (w2 & Hrun2 & He2).
  unfold bind; rewrite Hrun, Hrun2; exists w2; split.
  - cbn [fst snd]; rewrite outcomes_app, passes_app, length_app, Nat2Z.inj_add, He.
    f_equal; f_equal; f_equal; lia.
  - now rewrite env_after_all_app, He2, He.
Qed.

Lemma tallies_print self s m calls c0 :
  tallies self m calls c0 -> tallies self (print (plain s) ;; m) calls c0.
Proof. intros Hm w; rewrite bind_print; exact (Hm (out w [s])). Qed.

Lemma tallies_if self (b : bool) m calls c0 :
  tallies self m calls c0 ->
  tallies self (if b then m else ret c0) (if b then calls else []) c0.
Proof. destruct b; [trivial|intros _; apply tallies_ret]. Qed.

Lemma run_tests_tallies args self :
  tallies self (run_tests args self) (executed args) (0, 0).
Proof.
  unfold run_tests, executed.
  destruct (arg_run_all_tests args).
  - apply tallies_print.
    change [CallHealth; CallTokenRegistration; CallSend None true]
      with ([CallHealth] ++ [CallTokenRegistration] ++ [CallSend None true] ++ []).
    apply tallies_bind; [exact (tallies_tally self CallHealth _)|intros c1].
    apply tallies_print.
    apply tallies_bind; [exact (tallies_tally self CallTokenRegistration _)|intros c2].
    apply tallies_print.
    apply tallies_bind; [exact (tallies_tally self (CallSend None true) _)|intros c3].
    apply tallies_print, tallies_ret.
  - apply tallies_bind;
      [apply tallies_if; exact (tallies_tally self CallHealth _)|intros c1].
    apply tallies_bind;
      [apply tallies_if; exact (tallies_tally self CallTokenRegistration _)|intros c2].
    apply tallies_bind;
      [apply tallies_if; exact (tallies_tally self (CallSend _ _) _)|intros c3].
    rewrite <- (app_nil_r (if Py.truthy_opt _ then _ else _)).
    apply tallies_bind;
      [apply tallies_if; exact (tallies_tally self (CallUserTokens _) _)|intros c4].
    apply tallies_ret.
Qed.

Lemma passes_all l :
  (passes l =? Z.of_nat (List.length l)) = forallb (fun b : bool => b) l.
Proof.
  unfold passes.
  assert (H : (List.length (filter (fun b : bool => b) l) <= List.length l)%nat)
    by apply filter_length_le.
  induction l as [|b l IH]; [reflexivity|].
  cbn [filter forallb List.length] in *.
  pose proof (filter_length_le (fun b : bool => b) l) as Hl.
  destruct b; cbn [List.length andb].
  - rewrite <- IH by exact Hl.
    destruct (Z.eqb_spec (Z.of_nat (List.length (filter (fun b : bool => b) l)))
                         (Z.of_nat (List.length l)));
      [apply Z.eqb_eq|apply Z.eqb_neq]; lia.
  - apply Z.eqb_neq; lia.
Qed.

Lemma outcomes_length self calls e :
  List.length (outcomes self calls e) = List.length calls.
Proof.
  revert e; induction calls as [|c calls IH]; intros e; cbn; [reflexivity|].
  now rewrite IH.
Qed.

Lemma results_of_outcomes self calls e :
  results_of self calls e = outcomes self calls e.
Proof.
  revert e; induction calls as [|c calls IH]; intros e; cbn; [reflexivity|].
  unfold returned, state_left.
  destruct (invoke_returns_at self c (mkWorld e [] [] [])) as [lines ->].
  cbn [fst snd env]; f_equal.
  rewrite IH; f_equal.
  unfold left_by, env_after, after; cbn [env].
  now destruct (request_of self c (time_time e)).
Qed.

(** C3: [main] ends in [sys.exit].  The count of passed tests is the
    number of the calls made that returned true, each made with the
    remote side as the calls before it left it; the count of tests run is
    the number of calls made; the status is 0 exactly when the two counts
    are equal, that is when no call returned false; with no call made
    (0/0) the status is 0. *)
Theorem exit_zero_iff_all_passed (args : Args) (w : World) :
  let tester := FCMTester_init (arg_supabase_url args) (arg_supabase_key args) in
  let results := results_of tester (executed args) (env w) in
  let passed := Z.of_nat (List.length (filter (fun b : bool => b) results)) in
  let total := Z.of_nat (List.length (executed args)) in
  exists code,
    snd (run_tests args tester w) = Return (passed, total)
    /\ List.length results = List.length (executed args)
    /\ exit_status (snd (main args w)) = Some code
    /\ (code = 0 <-> passed = total)
    /\ (code = 0 <-> forall b, In b results -> b = true)
    /\ (executed args = [] -> code = 0).
Proof.
  cbv zeta.
  set (tester := FCMTester_init (arg_supabase_url args) (arg_supabase_key args)).
  rewrite results_of_outcomes.
  set (results := outcomes tester (executed args) (env w)).
  assert (Hlen : List.length results = List.length (executed args))
    by apply outcomes_length.
  exists (if forallb (fun b : bool => b) results then 0 else 1).
  unfold main, bind; fold tester.
  destruct (run_tests_tallies args tester w) as (w1 & -> & He).
  rewrite report_run; cbn [fst snd exit_status]; fold results.
  change (0 + passes results) with (passes results).
  rewrite Z.add_0_l, <- Hlen, passes_all.
  split; [reflexivity|]; split; [reflexivity|]; split; [reflexivity|].
  assert (Hall : forallb (fun b : bool => b) results = true
                 <-> forall b, In b results -> b = true)
    by (rewrite forallb_forall; reflexivity).
  assert (Hpass : passes results = Z.of_nat (List.length results)
                  <-> forallb (fun b : bool => b) results = true)
    by (rewrite <- passes_all; symmetry; apply Z.eqb_eq).
  split; [|split].
  - unfold passes in Hpass; rewrite Hpass.
    destruct (forallb _ results); split; trivial; discriminate.
  - rewrite <- Hall.
    destruct (forallb _ results); split; trivial; discriminate.
  - intros Hnone; rewrite Hnone in Hlen.
    destruct results; [reflexivity|discriminate].
Qed.


End Proofs.

(** ** Concrete runs *)

(** The spec's example for the empty token list: only
    [--test-token-registration], "1/1 tests passed", exit status 0. *)
Example only_registration_on_empty_backend :
  let args := mkArgs demo_url (lit "anon-key") true false false None false None false in
  let r := @main empty_backend args (fresh_world empty_backend tt) in
  snd r = Raise (SystemExit 0)
  /\ nth_error (stdout (fst r)) 3
       = Some (NL :: BAR_CHART :: lit " Test Results: 1/1 tests passed").
Proof. vm_compute; split; reflexivity. Qed.

(** The spec's example for a send without a target: nothing is posted,
    "0/1 tests passed", exit status 1. *)
Example send_without_target_fails :
  let args := mkArgs demo_url (lit "anon-key") false false true None false None false in
  let r := @main accepting args (fresh_world accepting tt) in
  snd r = Raise (SystemExit 1)
  /\ sent (fst r) = []
  /\ nth_error (stdout (fst r)) 2
       = Some (NL :: BAR_CHART :: lit " Test Results: 0/1 tests passed").
Proof. vm_compute; repeat split; reflexivity. Qed.

(** C1, as stated, fails: a call that gives both [user_id] and
    [test_all_users] is not turned down; the request goes out, with both
    selectors, and the call returns true. *)
Lemma both_selectors_are_sent :
  let r := @send_test_notification accepting demo_tester (Some (lit "user-1")) true
             (fresh_world accepting tt) in
  snd r = Return true
  /\ sent (fst r) =
       [ send_request demo_tester (Some (lit "user-1")) true 1700000000 ]
  /\ Py.dict_get (notification_payload (Some (lit "user-1")) true 1700000000)
                 (lit "user_id") = Some (PStr (lit "user-1"))
  /\ Py.dict_get (notification_payload (Some (lit "user-1")) true 1700000000)
                 (lit "test_all_users") = Some (PBool true).
Proof. vm_compute; repeat split; reflexivity. Qed.

(** C4, as stated, fails: [--get-user-tokens] was supplied (with the empty
    string), yet no operation is executed. *)
Lemma empty_identifier_flag_runs_nothing :
  trace (fst (@main demo only_empty_user_id (fresh_world demo tt))) = []
  /\ sent (fst (@main demo only_empty_user_id (fresh_world demo tt))) = []
  /\ requested only_empty_user_id = [ CallUserTokens [] ].
Proof. vm_compute; repeat split; reflexivity. Qed.

(** C6, as stated, fails: a 200 dispatch result that lacks [message],
    [results] and [summary] is a success of the send, and a token list
    whose sixth record lacks every field is a success of the
    token-registration check. *)
Lemma missing_fields_can_pass :
  snd (@send_test_notification accepting demo_tester None true
         (fresh_world accepting tt)) = Return true
  /\ snd (@test_token_registration six_tokens demo_tester
            (fresh_world six_tokens tt)) = Return true.
Proof. vm_compute; split; reflexivity. Qed.

(** C8 at the backend with no token. *)
Lemma registration_empty_list_witness :
  @test_token_registration empty_backend demo_tester (fresh_world empty_backend tt) =
    (@after empty_backend (fresh_world empty_backend tt)
       (registration_request demo_tester) CallTokenRegistration
       [ MAGNIFIER :: lit " Testing FCM token registration...";
         CHECK_MARK :: lit " Found 0 active FCM tokens in database";
         WARNING +++ lit "  No active FCM tokens found. Make sure to register tokens from your iOS app first." ],
     Return true).
Proof.
  apply (@registration_empty_list_is_success empty_backend demo_tester
           (fresh_world empty_backend tt) (mkResponse 200 (lit "<body>") (Some (PList []))));
    reflexivity.
Defined.

(** C7 at the demo backend, whose health probe gets a 500. *)
Lemma run_all_with_failed_health_witness :
  exists lines,
    stdout (fst (@main demo run_all (fresh_world demo tt))) =
      lines ++
        [ NL :: BAR_CHART :: lit " Test Results: 2/3 tests passed";
          CROSS_MARK :: lit " Some tests failed. Check the output above for details." ]
    /\ snd (@main demo run_all (fresh_world demo tt)) = Raise (SystemExit 1).
Proof.
  apply (@run_all_with_failed_health_is_2_of_3 demo run_all (fresh_world demo tt));
    vm_compute; reflexivity.
Defined.

(** C5 at the demo backend: a 36-character token is cut to 20 characters
    in the two listings and shown whole in the send report. *)
Lemma listings_truncate_tokens_witness :
  nth_error (stdout (fst (@test_token_registration demo demo_tester
                            (fresh_world demo tt)))) 4
    = Some (lit "     Token: abcdefghijklmnopqrst...")
  /\ nth_error (stdout (fst (@get_user_fcm_tokens demo demo_tester (lit "user-1")
                               (fresh_world demo tt)))) 2
       = Some (lit "  1. Token: abcdefghijklmnopqrst...")
  /\ nth_error (stdout (fst (@send_test_notification demo demo_tester None true
                               (fresh_world demo tt)))) 6
       = Some (lit "        Token: abcdefghijklmnopqrstuvwxyz0123456789").
Proof.
  destruct (@listings_truncate_tokens_send_does_not demo) as (Hreg & Huser & Hsend & _).
  split; [|split].
  - rewrite (Hreg demo_tester (fresh_world demo tt)
               (mkResponse 200 (lit "<body>") (Some (PList [ demo_record ])))
               [ demo_record ] [ demo_token_record ]);
      [reflexivity|reflexivity|reflexivity|reflexivity|].
    repeat constructor.
  - rewrite (Huser demo_tester (lit "user-1") (fresh_world demo tt)
               (mkResponse 200 (lit "<body>") (Some (PList [ demo_record ])))
               [ demo_record ] [ demo_token_record ]);
      [reflexivity|reflexivity|reflexivity|reflexivity|].
    repeat constructor.
  - rewrite (Hsend demo_tester None true (fresh_world demo tt)
               (mkResponse 200 (lit "<body>") (Some (PDict demo_dispatch_result)))
               demo_dispatch_result [ demo_record ] [ demo_device_result ]);
      [reflexivity|reflexivity|reflexivity|reflexivity|reflexivity|reflexivity
      |reflexivity| |reflexivity].
    repeat constructor.
Defined.

(** C5, as stated, fails: a token of three characters is shown whole by
    the token-registration check, before the ellipsis marker. *)
Lemma short_tokens_are_listed_whole :
  stdout (fst (@test_token_registration short_token demo_tester
                 (fresh_world short_token tt)))
    = [ MAGNIFIER :: lit " Testing FCM token registration...";
        CHECK_MARK :: lit " Found 1 active FCM tokens in database";
        NL :: PHONE :: lit " Active FCM tokens:";
        lit "  1. User: user-1";
        lit "     Token: " +++ lit "abc" +++ lit "...";
        lit "     Device: device-1";
        lit "     Platform: ios";
        lit "     Updated: 2024-05-01T10:00:00Z";
        [] ]
  /\ field short_record "token" = Some (PStr (lit "abc")).
Proof. vm_compute; split; reflexivity. Qed.

(** A lone surrogate in a field that is displayed makes [print] fail
    inside the [try] block: the token-registration check and the send
    report the error and return false. *)
Example lone_surrogates_fail_the_display :
  @test_token_registration surrogates demo_tester (fresh_world surrogates tt)
    = (@after surrogates (fresh_world surrogates tt)
         (registration_request demo_tester) CallTokenRegistration
         [ MAGNIFIER :: lit " Testing FCM token registration...";
           CHECK_MARK :: lit " Found 1 active FCM tokens in database";
           NL :: PHONE :: lit " Active FCM tokens:";
           CROSS_MARK :: lit " Error testing token registration: <exception>" ],
       Return false)
  /\ snd (@send_test_notification surrogates demo_tester None true
            (fresh_world surrogates tt)) = Return false.
Proof. vm_compute; split; reflexivity. Qed.

(** A run on a command line without the required options ends in
    [argparse], with status 2; with the options and [--run-all-tests] the
    demo backend gives 2/3 and status 1. *)
Example script_starts_with_the_parser :
  @script demo (fresh_world demo tt) = (fresh_world demo tt, Raise (SystemExit 2))
  /\ snd (@script (on_command_line demo (inr run_all))
            (fresh_world (on_command_line demo (inr run_all)) tt))
     = Raise (SystemExit 1).
Proof. vm_compute; split; reflexivity. Qed.

(** C6 at the broken backend: the unreachable dispatch endpoint fails the
    health check, and the token without fields fails the token-registration
    check. *)
Lemma faults_are_failures_witness :
  snd (@invoke broken demo_tester CallHealth (fresh_world broken tt)) = Return false
  /\ snd (@test_token_registration broken demo_tester (fresh_world broken tt))
       = Return false.
Proof.
  destruct (@faults_are_failures_not_crashes broken) as (_ & Hfault & Hreg & _).
  split.
  - apply (Hfault demo_tester CallHealth (fresh_world broken tt)
             (health_request demo_tester) (lit "connection refused"));
      reflexivity.
  - apply (Hreg demo_tester (fresh_world broken tt)
             (mkResponse 200 (lit "<body>") (Some (PList [ PDict [] ])))
             [ PDict [] ] (PDict []) "token"%string);
      [reflexivity|reflexivity|now left|cbn; auto|reflexivity].
Defined.

(** X3 at the broken backend: the health check reports the refused
    connection. *)
Lemma transport_fault_report_witness :
  @invoke broken demo_tester CallHealth (fresh_world broken tt) =
    (@after broken (fresh_world broken tt) (health_request demo_tester) CallHealth
       [ MAGNIFIER :: lit " Testing edge function health...";
         CROSS_MARK :: lit " Error testing edge function: <exception>" ],
     Return false).
Proof.
  apply (@transport_fault_report broken demo_tester CallHealth
           (fresh_world broken tt) (health_request demo_tester)
           (lit "connection refused"));
    reflexivity.
Defined.

(** X4 at the backend that answers 400: the broadcast send fails on the
    reply that the health check accepts. *)
Lemma rejected_status_report_witness :
  @invoke rejecting demo_tester (CallSend None true) (fresh_world rejecting tt) =
    (@after rejecting (fresh_world rejecting tt)
       (send_request demo_tester None true 1700000000) (CallSend None true)
       [ OUTBOX :: lit " Sending test notification...";
         lit "   Target: All users";
         CROSS_MARK :: lit " Failed to send test notification: 400";
         lit "Response: missing required fields" ],
     Return false).
Proof.
  apply (@rejected_status_report rejecting demo_tester (CallSend None true)
           (fresh_world rejecting tt) (send_request demo_tester None true 1700000000)
           (mkResponse 400 (lit "missing required fields") None));
    reflexivity.
Defined.

(** The same reply passes the health check. *)
Example health_accepts_400 :
  snd (@test_edge_function_health rejecting demo_tester (fresh_world rejecting tt))
    = Return true.
Proof. vm_compute; reflexivity. Qed.

